(** * react-invoice-generator: the computational core of [InvoicePage.tsx]

    A shallow embedding of the invoice component's logic: the numeric
    handling of the quantity and rate fields, the line, subtotal and tax
    aggregation, the two pagination paths, and the SEPA payment payload.

    JavaScript numbers are IEEE 754 binary64 values.  They are modelled with
    the integer-based specification of binary floats of the Standard Library
    ([SpecFloat], precision 53, [emax] 1024), so every operation below
    computes, and rounding is the real rounding of the language.

    JavaScript strings are modelled by [string]; a character stands for a
    UTF-16 code unit below 256. *)

From Stdlib Require Import ZArith Lia List Bool Ascii String.
From Stdlib Require Import DecimalString SpecFloat.
Import ListNotations.

Open Scope string_scope.
Open Scope Z_scope.

(** ** JavaScript numbers *)

Module JSNumber.

Definition prec : Z := 53.
Definition emax : Z := 1024.

Definition number : Type := spec_float.

Definition NaN : number := S754_nan.
Definition zero : number := S754_zero false.

Definition add (x y : number) : number := SFadd prec emax x y.
Definition mul (x y : number) : number := SFmul prec emax x y.
Definition div (x y : number) : number := SFdiv prec emax x y.

(** [ToBoolean] on a number: [+0], [-0] and [NaN] are falsy. *)
Definition truthy (x : number) : bool :=
  match x with
  | S754_zero _ | S754_nan => false
  | _ => true
  end.

(** The number nearest to [num / den], ties to even ([num], [den] positive);
    the quotient is taken with enough bits for the location of the remainder
    to decide the rounding. *)
Definition of_ratio (neg : bool) (num den : Z) : number :=
  match num with
  | Z0 => S754_zero neg
  | _ =>
      let '(q, e, l) := SFdiv_core_binary prec emax num 0 den 0 in
      binary_round_aux prec emax neg q e l
  end.

(** The number nearest to [d * 10 ^ e10], for a natural [d]. *)
Definition of_decimal (neg : bool) (d e10 : Z) : number :=
  if 0 <=? e10 then of_ratio neg (d * 10 ^ e10) 1
  else of_ratio neg d (10 ^ (- e10)).

Definition of_Z (z : Z) : number :=
  of_decimal (z <? 0) (Z.abs z) 0.

(** [SameValue] on numbers: the same datum, [NaN] the same as itself and
    the two zeros apart. *)
Definition sameValue (x y : number) : bool :=
  match x, y with
  | S754_zero a, S754_zero b => Bool.eqb a b
  | S754_infinity a, S754_infinity b => Bool.eqb a b
  | S754_nan, S754_nan => true
  | S754_finite a m e, S754_finite b m' e' =>
      Bool.eqb a b && Pos.eqb m m' && Z.eqb e e'
  | _, _ => false
  end.

(** *** Text of a number

    [Number::toString] in radix 10 prints the shortest digit string [s] of
    [k] digits with [s * 10 ^ (n - k)] rounding back to the number, the
    nearest to the number among those, the even one on a tie. *)

Definition decimalDigits (n : Z) : string :=
  NilEmpty.string_of_uint (N.to_uint (Z.to_N n)).

Fixpoint zeros (k : nat) : string :=
  match k with
  | O => ""
  | S k' => String "0" (zeros k')
  end.

Fixpoint scaleUp (fuel : nat) (num den j : Z) : Z :=
  match fuel with
  | O => j
  | S fuel' => if den <=? num then j else scaleUp fuel' (10 * num) den (j + 1)
  end.

(** The [n] with [10 ^ (n - 1) <= num / den < 10 ^ n]. *)
Definition decimalExponent (num den : Z) : Z :=
  if den <=? num then Z.of_nat (String.length (decimalDigits (num / den)))
  else 1 - scaleUp 400 num den 0.

Record candidate : Type := { cand_s : Z; cand_n : Z; cand_dist : Z }.

Definition candidates (x : number) (num den n0 k : Z) : list candidate :=
  let scale := n0 - k in
  let N := if 0 <=? scale then num else num * 10 ^ (- scale) in
  let D := if 0 <=? scale then den * 10 ^ scale else den in
  let q := N / D in
  let q' := q / 10 in
  filter
    (fun c =>
       (10 ^ (k - 1) <=? cand_s c) && (cand_s c <? 10 ^ k)
       && sameValue (of_decimal false (cand_s c) (cand_n c - k)) x)
    [ {| cand_s := q; cand_n := n0; cand_dist := Z.abs (q * D - N) |};
      {| cand_s := q + 1; cand_n := n0; cand_dist := Z.abs ((q + 1) * D - N) |};
      {| cand_s := q'; cand_n := n0 + 1; cand_dist := Z.abs (10 * q' * D - N) |};
      {| cand_s := q' + 1; cand_n := n0 + 1;
         cand_dist := Z.abs (10 * (q' + 1) * D - N) |} ].

Definition closer (a b : candidate) : candidate :=
  if cand_dist b <? cand_dist a then b
  else if (cand_dist b =? cand_dist a) && Z.even (cand_s b) then b
  else a.

Definition closest (cs : list candidate) : option candidate :=
  match cs with
  | [] => None
  | c :: cs' => Some (fold_left closer cs' c)
  end.

Fixpoint shortest (x : number) (num den n0 : Z) (ks : list Z) : option (candidate * Z) :=
  match ks with
  | [] => None
  | k :: ks' =>
      match closest (candidates x num den n0 k) with
      | Some c => Some (c, k)
      | None => shortest x num den n0 ks'
      end
  end.

(** Seventeen digits always identify a binary64 value. *)
Definition digitCounts : list Z :=
  [1; 2; 3; 4; 5; 6; 7; 8; 9; 10; 11; 12; 13; 14; 15; 16; 17].

Definition positiveToString (m : positive) (e : Z) : string :=
  let num := if 0 <=? e then Zpos m * 2 ^ e else Zpos m in
  let den := if 0 <=? e then 1 else 2 ^ (- e) in
  match shortest (S754_finite false m e) num den (decimalExponent num den) digitCounts with
  | None => "NaN"
  | Some (c, k) =>
      let n := cand_n c in
      let ds := decimalDigits (cand_s c) in
      if (-5 <=? n) && (n <=? 21) then
        if k <=? n then ds ++ zeros (Z.to_nat (n - k))
        else if 0 <? n then
          substring 0 (Z.to_nat n) ds ++ "." ++ substring (Z.to_nat n) (Z.to_nat (k - n)) ds
        else "0." ++ zeros (Z.to_nat (- n)) ++ ds
      else
        let ex := (if 0 <=? n - 1 then "+" else "-") ++ decimalDigits (Z.abs (n - 1)) in
        if k =? 1 then ds ++ "e" ++ ex
        else substring 0 1 ds ++ "." ++ substring 1 (Z.to_nat (k - 1)) ds ++ "e" ++ ex
  end.

Definition toString (x : number) : string :=
  match x with
  | S754_nan => "NaN"
  | S754_zero _ => "0"
  | S754_infinity s => if s then "-Infinity" else "Infinity"
  | S754_finite s m e => (if s then "-" else "") ++ positiveToString m e
  end.

(** [Number.prototype.toFixed]: the integer [n] with [n / 10 ^ f] nearest to
    the magnitude of the number, the larger one on a tie. *)
Definition fixedInteger (f : nat) (x : number) : Z :=
  match x with
  | S754_finite _ m e =>
      let p := 10 ^ Z.of_nat f in
      if 0 <=? e then Zpos m * 2 ^ e * p
      else (2 * (Zpos m * p) + 2 ^ (- e)) / (2 * 2 ^ (- e))
  | _ => 0
  end.

Definition fixedString (f : nat) (n : Z) : string :=
  let m := decimalDigits n in
  match f with
  | O => m
  | _ =>
      let m' := zeros (S f - String.length m) ++ m in
      let k := String.length m' in
      substring 0 (k - f) m' ++ "." ++ substring (k - f) f m'
  end.

Definition atLeast1e21 (x : number) : bool :=
  match x with
  | S754_finite _ m e =>
      if 0 <=? e then 10 ^ 21 <=? Zpos m * 2 ^ e
      else 10 ^ 21 * 2 ^ (- e) <=? Zpos m
  | _ => false
  end.

Definition toFixed (x : number) (f : nat) : string :=
  match x with
  | S754_nan | S754_infinity _ => toString x
  | S754_zero _ => fixedString f 0
  | S754_finite s _ _ =>
      (if s then "-" else "")
      ++ (if atLeast1e21 x then toString (SFabs x) else fixedString f (fixedInteger f x))
  end.

(** *** [parseFloat]

    Leading white space is skipped, then the longest prefix that is a
    [StrDecimalLiteral] is read; the value is the number nearest to the
    decimal read, and [NaN] when there is no such prefix. *)

Definition isWhiteSpace (c : ascii) : bool :=
  let n := N_of_ascii c in
  (((9 <=? n) && (n <=? 13)) || (n =? 32) || (n =? 160))%N.

Fixpoint trimStart (s : string) : string :=
  match s with
  | String c r => if isWhiteSpace c then trimStart r else s
  | EmptyString => s
  end.

Definition isDigit (c : ascii) : bool :=
  let n := N_of_ascii c in ((48 <=? n) && (n <=? 57))%N.

Definition digitValue (c : ascii) : Z := Z.of_N (N_of_ascii c) - 48.

(** Reads a run of digits: the value accumulated onto [acc], the number of
    digits read, and the rest of the text. *)
Fixpoint readDigits (s : string) (acc count : Z) : Z * Z * string :=
  match s with
  | String c r =>
      if isDigit c then readDigits r (10 * acc + digitValue c) (count + 1)
      else (acc, count, s)
  | EmptyString => (acc, count, s)
  end.

(** The value of an [ExponentPart] at the head of [s], 0 when there is none. *)
Definition readExponent (s : string) : Z :=
  match s with
  | String c r =>
      if Ascii.eqb c "e" || Ascii.eqb c "E" then
        let '(neg, r') :=
          match r with
          | String "+" t => (false, t)
          | String "-" t => (true, t)
          | _ => (false, r)
          end in
        let '(v, n, _) := readDigits r' 0 0 in
        if n =? 0 then 0 else if neg then - v else v
      else 0
  | EmptyString => 0
  end.

Definition strUnsignedDecimalLiteral (neg : bool) (s : string) : number :=
  if prefix "Infinity" s then S754_infinity neg
  else
    let '(ip, ni, r1) := readDigits s 0 0 in
    match r1 with
    | String "." r2 =>
        let '(m, nf, r3) := readDigits r2 ip 0 in
        if (ni =? 0) && (nf =? 0) then NaN
        else of_decimal neg m (readExponent r3 - nf)
    | _ => if ni =? 0 then NaN else of_decimal neg ip (readExponent r1)
    end.

Definition parseFloat (s : string) : number :=
  match trimStart s with
  | String c r =>
      if Ascii.eqb c "+" then strUnsignedDecimalLiteral false r
      else if Ascii.eqb c "-" then strUnsignedDecimalLiteral true r
      else strUnsignedDecimalLiteral false (String c r)
  | EmptyString => NaN
  end.

End JSNumber.

(** ** Strings as the component uses them *)

(** A string is truthy when it is not empty. *)
Definition nonEmpty (s : string) : bool :=
  match s with
  | EmptyString => false
  | String _ _ => true
  end.

(** [a || b] on strings. *)
Definition orElse (a b : string) : string := if nonEmpty a then a else b.

(** [s[s.length - 1]]: [None] stands for [undefined], on the empty string. *)
Fixpoint lastChar (s : string) : option ascii :=
  match s with
  | EmptyString => None
  | String c EmptyString => Some c
  | String _ r => lastChar r
  end.

Definition lastCharIs (c : ascii) (s : string) : bool :=
  match lastChar s with
  | Some d => Ascii.eqb d c
  | None => false
  end.

(** [s.includes(c)] for a one-character pattern. *)
Fixpoint includes (c : ascii) (s : string) : bool :=
  match s with
  | EmptyString => false
  | String d r => Ascii.eqb d c || includes c r
  end.

(** [s.replace(c, d)] for one-character texts: the first occurrence only. *)
Fixpoint replaceFirst (c d : ascii) (s : string) : string :=
  match s with
  | EmptyString => EmptyString
  | String a r => if Ascii.eqb a c then String d r else String a (replaceFirst c d r)
  end.

(** Whether the first character of [s] is [c]. *)
Definition startsWithChar (c : ascii) (s : string) : bool :=
  match s with
  | EmptyString => false
  | String d _ => Ascii.eqb d c
  end.

Definition newline : string := String (ascii_of_nat 10) EmptyString.

(** [lines.join("\n")]. *)
Fixpoint joinLines (ls : list string) : string :=
  match ls with
  | [] => ""
  | [l] => l
  | l :: ls' => l ++ newline ++ joinLines ls'
  end.

(** ** Arrays indexed by a JavaScript number

    Reading outside the array gives [undefined] ([None]); the indices used
    by the component are integers. *)

Definition lookupZ {A : Type} (l : list A) (i : Z) : option A :=
  if i <? 0 then None else nth_error l (Z.to_nat i).

Fixpoint updateNth {A : Type} (l : list A) (n : nat) (x : A) : list A :=
  match l, n with
  | [], _ => []
  | _ :: t, O => x :: t
  | h :: t, S n' => h :: updateNth t n' x
  end.

(** [l[i] = x] at an index inside the array. *)
Definition updateZ {A : Type} (l : list A) (i : Z) (x : A) : list A :=
  if i <? 0 then l else updateNth l (Z.to_nat i) x.

(** [l.filter((_, index) => index !== i)]. *)
Fixpoint removeFrom {A : Type} (l : list A) (index i : Z) : list A :=
  match l with
  | [] => []
  | h :: t => if index =? i then removeFrom t (index + 1) i else h :: removeFrom t (index + 1) i
  end.

(** [l.slice(start, stop)] for [0 <= start] and [0 <= stop]. *)
Definition slice {A : Type} (l : list A) (start stop : nat) : list A :=
  firstn (stop - start) (skipn start l).

(** ** Data model ([data/types.ts]) *)

Import JSNumber.

Record ProductLine : Type := {
  description : string;
  quantity : string;
  rate : string
}.

Inductive ProductLineKey : Type :=
  | keyDescription
  | keyQuantity
  | keyRate.

Definition setField (pl : ProductLine) (name : ProductLineKey) (v : string) : ProductLine :=
  match name with
  | keyDescription => {| description := v; quantity := quantity pl; rate := rate pl |}
  | keyQuantity => {| description := description pl; quantity := v; rate := rate pl |}
  | keyRate => {| description := description pl; quantity := quantity pl; rate := v |}
  end.

(** Modelled from the spec: the field [pageProductLines], the collection of
    Pages of the data model, an optional array of arrays of product lines;
    the component reads and writes it, its declaration is missing from the
    interface.  The other fields are those of the [Invoice] interface. *)
Record Invoice : Type := {
  logo : string;
  logoWidth : number;
  title : string;
  companyName : string;
  companyName2 : string;
  name : string;
  companyAddress : string;
  companyAddress2 : string;
  companyCountry : string;
  billTo : string;
  clientName : string;
  clientAddress : string;
  clientAddress2 : string;
  clientCountry : string;
  invoiceTitleLabel : string;
  invoiceTitle : string;
  invoiceDateLabel : string;
  invoiceDate : string;
  invoiceDueDateLabel : string;
  invoiceDueDate : string;
  productLineDescription : string;
  productLineQuantity : string;
  productLineQuantityRate : string;
  productLineQuantityAmount : string;
  productLines : list ProductLine;
  pageProductLines : option (list (list ProductLine));
  subTotalLabel : string;
  taxLabel : string;
  totalLabel : string;
  currency : string;
  notesLabel : string;
  notes : string;
  termLabel : string;
  term : string;
  umsatzsteuerLabel : string;
  umsatzsteuer : string;
  ibanLabel : string;
  iban : string;
  bicLabel : string;
  bic : string
}.

(** [{ ...invoice, pageProductLines: pages }] *)
Definition withPageProductLines (inv : Invoice) (pages : list (list ProductLine)) : Invoice :=
  {|
     logo := logo inv;
     logoWidth := logoWidth inv;
     title := title inv;
     companyName := companyName inv;
     companyName2 := companyName2 inv;
     name := name inv;
     companyAddress := companyAddress inv;
     companyAddress2 := companyAddress2 inv;
     companyCountry := companyCountry inv;
     billTo := billTo inv;
     clientName := clientName inv;
     clientAddress := clientAddress inv;
     clientAddress2 := clientAddress2 inv;
     clientCountry := clientCountry inv;
     invoiceTitleLabel := invoiceTitleLabel inv;
     invoiceTitle := invoiceTitle inv;
     invoiceDateLabel := invoiceDateLabel inv;
     invoiceDate := invoiceDate inv;
     invoiceDueDateLabel := invoiceDueDateLabel inv;
     invoiceDueDate := invoiceDueDate inv;
     productLineDescription := productLineDescription inv;
     productLineQuantity := productLineQuantity inv;
     productLineQuantityRate := productLineQuantityRate inv;
     productLineQuantityAmount := productLineQuantityAmount inv;
     productLines := productLines inv;
     pageProductLines := Some pages;
     subTotalLabel := subTotalLabel inv;
     taxLabel := taxLabel inv;
     totalLabel := totalLabel inv;
     currency := currency inv;
     notesLabel := notesLabel inv;
     notes := notes inv;
     termLabel := termLabel inv;
     term := term inv;
     umsatzsteuerLabel := umsatzsteuerLabel inv;
     umsatzsteuer := umsatzsteuer inv;
     ibanLabel := ibanLabel inv;
     iban := iban inv;
     bicLabel := bicLabel inv;
     bic := bic inv
  |}.

(** [{ ...invoice, taxLabel: label }] *)
Definition withTaxLabel (inv : Invoice) (label : string) : Invoice :=
  {|
     logo := logo inv;
     logoWidth := logoWidth inv;
     title := title inv;
     companyName := companyName inv;
     companyName2 := companyName2 inv;
     name := name inv;
     companyAddress := companyAddress inv;
     companyAddress2 := companyAddress2 inv;
     companyCountry := companyCountry inv;
     billTo := billTo inv;
     clientName := clientName inv;
     clientAddress := clientAddress inv;
     clientAddress2 := clientAddress2 inv;
     clientCountry := clientCountry inv;
     invoiceTitleLabel := invoiceTitleLabel inv;
     invoiceTitle := invoiceTitle inv;
     invoiceDateLabel := invoiceDateLabel inv;
     invoiceDate := invoiceDate inv;
     invoiceDueDateLabel := invoiceDueDateLabel inv;
     invoiceDueDate := invoiceDueDate inv;
     productLineDescription := productLineDescription inv;
     productLineQuantity := productLineQuantity inv;
     productLineQuantityRate := productLineQuantityRate inv;
     productLineQuantityAmount := productLineQuantityAmount inv;
     productLines := productLines inv;
     pageProductLines := pageProductLines inv;
     subTotalLabel := subTotalLabel inv;
     taxLabel := label;
     totalLabel := totalLabel inv;
     currency := currency inv;
     notesLabel := notesLabel inv;
     notes := notes inv;
     termLabel := termLabel inv;
     term := term inv;
     umsatzsteuerLabel := umsatzsteuerLabel inv;
     umsatzsteuer := umsatzsteuer inv;
     ibanLabel := ibanLabel inv;
     iban := iban inv;
     bicLabel := bicLabel inv;
     bic := bic inv
  |}.

(** ** The component ([components/InvoicePage.tsx]) *)

(** The state of the component: the invoice, the two derived amounts
    ([undefined] before the effects have run), the payload last handed to
    the QR encoder ([None] while [qrCodeDataUrl] is empty), the selected page
    and the page count. *)
Record State : Type := {
  invoice : Invoice;
  subTotal : option number;
  saleTax : option number;
  qrCodeData : option string;
  currentPage : Z;
  totalPages : Z
}.

Definition setInvoice (st : State) (inv : Invoice) : State :=
  {| invoice := inv;
     subTotal := subTotal st;
     saleTax := saleTax st;
     qrCodeData := qrCodeData st;
     currentPage := currentPage st;
     totalPages := totalPages st |}.

(** [invoice.pageProductLines || []]. *)
Definition pagesOrEmpty (inv : Invoice) : list (list ProductLine) :=
  match pageProductLines inv with
  | Some pages => pages
  | None => []
  end.

Definition getCurrentPageItems (pdfMode : bool) (st : State) : list ProductLine :=
  if pdfMode then List.concat (pagesOrEmpty (invoice st))
  else
    match lookupZ (pagesOrEmpty (invoice st)) (currentPage st - 1) with
    | Some pageItems => pageItems
    | None => []
    end.

(** *** Editing a line *)

(** The text kept for a quantity or a rate: the raw text while it ends with
    a period, or with a zero when it has a period; else the number read from
    it, printed with a comma. *)
Definition keepsRawText (value : string) : bool :=
  lastCharIs "." value || (lastCharIs "0" value && includes "." value).

Definition normalizedText (value : string) : string :=
  let n := parseFloat value in
  replaceFirst "." "," (toString (if truthy n then n else zero)).

Definition editedField (name : ProductLineKey) (value : string) : string :=
  match name with
  | keyDescription => value
  | _ => if keepsRawText value then value else normalizedText value
  end.

Definition handleProductLineChange
    (st : State) (index : Z) (name : ProductLineKey) (value : string) : State :=
  let pageIndex := currentPage st - 1 in
  let newPageProductLines := pagesOrEmpty (invoice st) in
  (* a page that is missing is an empty page of the local copy *)
  let pageItems :=
    match lookupZ newPageProductLines pageIndex with
    | Some items => items
    | None => []
    end in
  match lookupZ pageItems index with
  | Some productLine =>
      let newProductLine := setField productLine name (editedField name value) in
      setInvoice st
        (withPageProductLines (invoice st)
           (updateZ newPageProductLines pageIndex (updateZ pageItems index newProductLine)))
  | None => st
  end.

Definition handleRemove (st : State) (i : Z) : State :=
  let pageIndex := currentPage st - 1 in
  let newPageProductLines := pagesOrEmpty (invoice st) in
  match lookupZ newPageProductLines pageIndex with
  | Some items =>
      setInvoice st
        (withPageProductLines (invoice st)
           (updateZ newPageProductLines pageIndex (removeFrom items 0 i)))
  | None => st
  end.

(** *** Amounts *)

(** The amount of a line, as [calculateAmount] and the subtotal effect both
    compute it. *)
Definition lineAmount (quantity rate : string) : number :=
  let quantityNumber := parseFloat quantity in
  let rateNumber := parseFloat rate in
  if truthy quantityNumber && truthy rateNumber then mul quantityNumber rateNumber
  else zero.

Definition calculateAmount (quantity rate : string) : string :=
  toFixed (lineAmount quantity rate) 2.

Definition addLine (acc : number) (productLine : ProductLine) : number :=
  add acc (lineAmount (quantity productLine) (rate productLine)).

Definition subTotalEffect (inv : Invoice) : number :=
  match pageProductLines inv with
  | Some pages =>
      fold_left (fun acc pageItems => fold_left addLine pageItems acc) pages zero
  | None => zero
  end.

(** *** The tax label: [taxLabel.match(/(\d+)%/)] *)

(** [\d+%] at the head of the text, greedy: a longer run of digits is tried
    before a shorter one.  The result is the captured run. *)
Fixpoint matchDigitsPercent (s : string) : option string :=
  match s with
  | EmptyString => None
  | String c r =>
      if isDigit c then
        match matchDigitsPercent r with
        | Some ds => Some (String c ds)
        | None => if startsWithChar "%" r then Some (String c EmptyString) else None
        end
      else None
  end.

(** The first position of the text where the pattern matches. *)
Fixpoint regexSearch (s : string) : option string :=
  match s with
  | EmptyString => None
  | String _ r =>
      match matchDigitsPercent s with
      | Some ds => Some ds
      | None => regexSearch r
      end
  end.

Definition extractRatePercent (taxLabel : string) : number :=
  match regexSearch taxLabel with
  | Some ds => parseFloat ds
  | None => zero
  end.

Definition saleTaxEffect (subTotal : option number) (taxLabel : string) : number :=
  let taxRate := extractRatePercent taxLabel in
  match subTotal with
  | Some s => if truthy s then div (mul s taxRate) (of_Z 100) else zero
  | None => zero
  end.

(** *** The SEPA payload *)

(** [subTotal || 0]. *)
Definition orZero (s : option number) : number :=
  match s with
  | Some x => if truthy x then x else zero
  | None => zero
  end.

(** The literal [0.19]. *)
Definition sepaTaxRate : number := of_decimal false 19 (-2).

Definition sepaTotal (subTotal : option number) : number :=
  let subtotal := orZero subTotal in
  let tax := mul subtotal sepaTaxRate in
  add subtotal tax.

Definition generateSepaQRData (inv : Invoice) (subTotal : option number) : string :=
  let total := sepaTotal subTotal in
  let recipient := orElse (name inv) (orElse (companyName inv) "") in
  let iban := orElse (iban inv) "" in
  let bic := orElse (bic inv) "" in
  let reference := orElse (invoiceTitle inv) "Rechnung" in
  "BCD" ++ newline ++
  "002" ++ newline ++
  "1" ++ newline ++
  "SCT" ++ newline ++
  bic ++ newline ++
  recipient ++ newline ++
  iban ++ newline ++
  "EUR" ++ toFixed total 2 ++ newline ++
  newline ++
  newline ++
  reference.

(** Whether the state [subTotal] is truthy: defined, and neither zero nor NaN. *)
Definition truthySubTotal (subTotal : option number) : bool :=
  match subTotal with
  | Some x => truthy x
  | None => false
  end.

(** The effect that encodes the payload for the export: the text handed to
    [QRCode.toDataURL], [None] when the effect does nothing.  The text is
    built as in [generateSepaQRData]. *)
Definition qrEffect (inv : Invoice) (subTotal : option number) : option string :=
  if nonEmpty (iban inv) && nonEmpty (bic inv) && truthySubTotal subTotal
  then Some (generateSepaQRData inv subTotal)
  else None.

(** The effect run once when the component is created: an invoice without
    pages gets one empty page. *)
Definition initializePages (inv : Invoice) : Invoice :=
  match pageProductLines inv with
  | None | Some [] => withPageProductLines inv [[]]
  | Some _ => inv
  end.

(** The effects, run after a change of the invoice. *)
Definition recompute (st : State) : State :=
  let s := subTotalEffect (invoice st) in
  {| invoice := invoice st;
     subTotal := Some s;
     saleTax := Some (saleTaxEffect (Some s) (taxLabel (invoice st)));
     qrCodeData :=
       match qrEffect (invoice st) (Some s) with
       | Some qrData => Some qrData
       | None => qrCodeData st
       end;
     currentPage := currentPage st;
     totalPages := totalPages st |}.

(** *** What is rendered *)

Definition money (x : number) : string := replaceFirst "." "," (toFixed x 2).

Inductive QRView : Type :=
  | qrAbsent
  | qrImage (encoded : string)
  | qrCanvas (value : string).

Record FooterView : Type := {
  subTotalText : option string;
  saleTaxText : option string;
  totalText : string;
  qrCode : QRView
}.

Definition totalValue (st : State) : number :=
  match subTotal st, saleTax st with
  | Some s, Some t => add s t
  | _, _ => zero
  end.

Definition renderFooter (pdfMode : bool) (st : State) : FooterView :=
  {| subTotalText := option_map money (subTotal st);
     saleTaxText := option_map money (saleTax st);
     totalText := money (totalValue st);
     qrCode :=
       if nonEmpty (iban (invoice st)) && nonEmpty (bic (invoice st)) then
         match pdfMode, qrCodeData st with
         | true, Some encoded => qrImage encoded
         | true, None => qrAbsent
         | false, _ => qrCanvas (generateSepaQRData (invoice st) (subTotal st))
         end
       else qrAbsent |}.

(** A rendered page: whether the header is there, the items given to the
    table, whether the footer is there. *)
Record PageView : Type := {
  showHeader : bool;
  tableItems : list ProductLine;
  showFooter : bool
}.

Definition renderSinglePage (pdfMode : bool) (st : State) : PageView :=
  {| showHeader := true;
     tableItems := getCurrentPageItems pdfMode st;
     showFooter := true |}.

Definition itemsPerPDFPage : nat := 20.

(** [Math.ceil(n / d)] on array lengths. *)
Definition ceilDiv (n d : nat) : nat := ((n + (d - 1)) / d)%nat.

Definition totalPDFPages (inv : Invoice) : nat :=
  Nat.max 1 (ceilDiv (List.length (productLines inv)) itemsPerPDFPage).

Definition pdfPage (inv : Invoice) (pageNum : nat) : PageView :=
  let startIdx := (pageNum * itemsPerPDFPage)%nat in
  let endIdx := Nat.min (startIdx + itemsPerPDFPage) (List.length (productLines inv)) in
  {| showHeader := Nat.eqb pageNum 0;
     tableItems := slice (productLines inv) startIdx endIdx;
     showFooter := Nat.eqb pageNum (totalPDFPages inv - 1) |}.

Definition renderPDFPages (pdfMode : bool) (st : State) : list PageView :=
  if pdfMode then map (pdfPage (invoice st)) (seq 0 (totalPDFPages (invoice st)))
  else [renderSinglePage pdfMode st].

(** ** Invoices to evaluate the component on

    An invoice with the given party, title, tax label, currency and banking
    fields and the given lines; every other text field is empty. *)
Definition sampleInvoice
    (name' companyName' invoiceTitle' taxLabel' currency' iban' bic' : string)
    (productLines' : list ProductLine)
    (pageProductLines' : option (list (list ProductLine))) : Invoice :=
  {|
     logo := "";
     logoWidth := of_Z 100;
     title := "";
     companyName := companyName';
     companyName2 := "";
     name := name';
     companyAddress := "";
     companyAddress2 := "";
     companyCountry := "";
     billTo := "";
     clientName := "";
     clientAddress := "";
     clientAddress2 := "";
     clientCountry := "";
     invoiceTitleLabel := "";
     invoiceTitle := invoiceTitle';
     invoiceDateLabel := "";
     invoiceDate := "";
     invoiceDueDateLabel := "";
     invoiceDueDate := "";
     productLineDescription := "";
     productLineQuantity := "";
     productLineQuantityRate := "";
     productLineQuantityAmount := "";
     productLines := productLines';
     pageProductLines := pageProductLines';
     subTotalLabel := "";
     taxLabel := taxLabel';
     totalLabel := "";
     currency := currency';
     notesLabel := "";
     notes := "";
     termLabel := "";
     term := "";
     umsatzsteuerLabel := "";
     umsatzsteuer := "";
     ibanLabel := "";
     iban := iban';
     bicLabel := "";
     bic := bic'
  |}.

Definition line (description' quantity' rate' : string) : ProductLine :=
  {| description := description'; quantity := quantity'; rate := rate' |}.

(** The state of a component just created on [inv], once its effects have run. *)
Definition mounted (inv : Invoice) : State :=
  recompute
    {| invoice := initializePages inv;
       subTotal := None;
       saleTax := None;
       qrCodeData := None;
       currentPage := 1;
       totalPages :=
         Z.max 1 (Z.of_nat (List.length (pagesOrEmpty (initializePages inv)))) |}.

(** ** The specification's words, for comparison *)

(** Section 4.5 of the specification: the eleven lines of the payload, in
    order, the amount after the caller's currency symbol. *)
Definition buildPayload
    (bic recipientName iban : string) (totalAmount : number)
    (currencySymbol reference : string) : string :=
  joinLines
    [ "BCD"; "002"; "1"; "SCT"; bic; recipientName; iban;
      currencySymbol ++ toFixed totalAmount 2; ""; ""; reference ].

(** Section 4.3: the label is scanned for a contiguous run of digits
    immediately followed by a percent sign; [run] is the run being read. *)
Fixpoint scanRuns (run : string) (s : string) : option string :=
  match s with
  | EmptyString => None
  | String c r =>
      if isDigit c then scanRuns (run ++ String c EmptyString) r
      else if Ascii.eqb c "%" && nonEmpty run then Some run
      else scanRuns EmptyString r
  end.

Definition firstDigitRunBeforePercent (label : string) : option string :=
  scanRuns EmptyString label.

(** A text made of digits only. *)
Fixpoint allDigits (s : string) : bool :=
  match s with
  | EmptyString => true
  | String c r => isDigit c && allDigits r
  end.

(** The natural number a run of digits writes. *)
Definition digitsValue (ds : string) : Z := fst (fst (readDigits ds 0 0)).

(** Section 4.1: the raw text is kept when its last character is the
    separator, or when it ends in a zero right after a separator. *)
Fixpoint endsWith (suffix s : string) : bool :=
  String.eqb suffix s
  || match s with
     | EmptyString => false
     | String _ r => endsWith suffix r
     end.

Definition specKeepsRawText (value : string) : bool :=
  lastCharIs "." value || endsWith ".0" value.

Definition specDisplayText (value : string) : string :=
  if specKeepsRawText value then value else normalizedText value.

(** Section 4.2: a displayed amount, in hundredths: the magnitude rounded
    half away from zero, with the sign of the number. *)
Definition displayedCents (x : number) : Z :=
  match x with
  | S754_finite s _ _ => if s then - fixedInteger 2 x else fixedInteger 2 x
  | _ => 0
  end.

(** ** Sample invoices *)

(** An invoice in dollars, with one line of ten units at ten. *)
Definition dollarInvoice : Invoice :=
  sampleInvoice "Jane Doe" "" "INV-1" "VAT 19%" "$" "DE12..." "ABCDDEFG"
    [] (Some [[line "Widget" "10" "10"]]).

(** An invoice whose pages hold a line that the legacy list of product
    lines does not. *)
Definition editedInvoice : Invoice :=
  sampleInvoice "Jane Doe" "" "INV-1" "VAT 19%" "EUR" "DE12..." "ABCDDEFG"
    [line "Legacy row" "1" "1"] (Some [[line "Widget" "2" "5"]]).

(** An invoice whose two lines have the amounts plus and minus infinity. *)
Definition infinityInvoice : Invoice :=
  sampleInvoice "Jane Doe" "" "INV-1" "VAT 19%" "EUR" "DE12..." "ABCDDEFG"
    [] (Some [[line "Credit" "Infinity" "1"; line "Debit" "-Infinity" "1"]]).

(** Three lines, grouped into pages in two ways. *)
Definition threeLines : list ProductLine :=
  [line "Paper" "3" "4.50"; line "Ink" "2" "0.10"; line "Pens" "abc" "7"].

Definition groupedTwoOne : list (list ProductLine) :=
  [[line "Paper" "3" "4.50"; line "Ink" "2" "0.10"]; [line "Pens" "abc" "7"]].

Definition groupedOneTwo : list (list ProductLine) :=
  [[line "Paper" "3" "4.50"]; []; [line "Ink" "2" "0.10"; line "Pens" "abc" "7"]].

(** An invoice with both banking fields and no line. *)
Definition noLinesInvoice : Invoice :=
  sampleInvoice "Jane Doe" "" "INV-1" "VAT 19%" "EUR" "DE12..." "ABCDDEFG"
    [] (Some [[]]).

(** An invoice with one line of 0.004 and a tax of 50%. *)
Definition roundingInvoice : Invoice :=
  sampleInvoice "Jane Doe" "" "INV-1" "VAT 50%" "EUR" "DE12..." "ABCDDEFG"
    [] (Some [[line "Sample" "1" "0.0040"]]).

(** The component on [dollarInvoice] with a third page selected, which the
    invoice does not have. *)
Definition onMissingPage : State :=
  {| invoice := dollarInvoice;
     subTotal := subTotal (mounted dollarInvoice);
     saleTax := saleTax (mounted dollarInvoice);
     qrCodeData := qrCodeData (mounted dollarInvoice);
     currentPage := 3;
     totalPages := 3 |}.

(** ** The other handlers of the component *)

(** The keys of the [Invoice] interface, [keyof Invoice]. *)
Inductive InvoiceKey : Type :=
  | k_logo
  | k_logoWidth
  | k_title
  | k_companyName
  | k_companyName2
  | k_name
  | k_companyAddress
  | k_companyAddress2
  | k_companyCountry
  | k_billTo
  | k_clientName
  | k_clientAddress
  | k_clientAddress2
  | k_clientCountry
  | k_invoiceTitleLabel
  | k_invoiceTitle
  | k_invoiceDateLabel
  | k_invoiceDate
  | k_invoiceDueDateLabel
  | k_invoiceDueDate
  | k_productLineDescription
  | k_productLineQuantity
  | k_productLineQuantityRate
  | k_productLineQuantityAmount
  | k_productLines
  | k_pageProductLines
  | k_subTotalLabel
  | k_taxLabel
  | k_totalLabel
  | k_currency
  | k_notesLabel
  | k_notes
  | k_termLabel
  | k_term
  | k_umsatzsteuerLabel
  | k_umsatzsteuer
  | k_ibanLabel
  | k_iban
  | k_bicLabel
  | k_bic.

Definition InvoiceKey_eq_dec (a b : InvoiceKey) : {a = b} + {a <> b}.
Proof. decide equality. Defined.

(** The value handed to [handleChange]: a string or a number. *)
Inductive FieldValue : Type :=
  | textValue (s : string)
  | numberValue (n : number).

(** [newInvoice[name] = value] seen from the text field [k]: the field is
    written when it is the one named and the value is a string. *)
Definition assignText (name k : InvoiceKey) (value : FieldValue) (old : string) : string :=
  match value with
  | textValue v => if InvoiceKey_eq_dec name k then v else old
  | numberValue _ => old
  end.

(** The same seen from [logoWidth], written when it is the field named and
    the value is a number. *)
Definition assignNumber (name : InvoiceKey) (value : FieldValue) (old : number) : number :=
  match value with
  | numberValue n => if InvoiceKey_eq_dec name k_logoWidth then n else old
  | textValue _ => old
  end.

Definition handleChange (st : State) (key : InvoiceKey) (value : FieldValue) : State :=
  match key with
  | k_productLines | k_pageProductLines => st
  | _ =>
      let inv := invoice st in
      setInvoice st
        {|
     logo := assignText key k_logo value (logo inv);
     logoWidth := assignNumber key value (logoWidth inv);
     title := assignText key k_title value (title inv);
     companyName := assignText key k_companyName value (companyName inv);
     companyName2 := assignText key k_companyName2 value (companyName2 inv);
     name := assignText key k_name value (name inv);
     companyAddress := assignText key k_companyAddress value (companyAddress inv);
     companyAddress2 := assignText key k_companyAddress2 value (companyAddress2 inv);
     companyCountry := assignText key k_companyCountry value (companyCountry inv);
     billTo := assignText key k_billTo value (billTo inv);
     clientName := assignText key k_clientName value (clientName inv);
     clientAddress := assignText key k_clientAddress value (clientAddress inv);
     clientAddress2 := assignText key k_clientAddress2 value (clientAddress2 inv);
     clientCountry := assignText key k_clientCountry value (clientCountry inv);
     invoiceTitleLabel := assignText key k_invoiceTitleLabel value (invoiceTitleLabel inv);
     invoiceTitle := assignText key k_invoiceTitle value (invoiceTitle inv);
     invoiceDateLabel := assignText key k_invoiceDateLabel value (invoiceDateLabel inv);
     invoiceDate := assignText key k_invoiceDate value (invoiceDate inv);
     invoiceDueDateLabel := assignText key k_invoiceDueDateLabel value (invoiceDueDateLabel inv);
     invoiceDueDate := assignText key k_invoiceDueDate value (invoiceDueDate inv);
     productLineDescription := assignText key k_productLineDescription value (productLineDescription inv);
     productLineQuantity := assignText key k_productLineQuantity value (productLineQuantity inv);
     productLineQuantityRate := assignText key k_productLineQuantityRate value (productLineQuantityRate inv);
     productLineQuantityAmount := assignText key k_productLineQuantityAmount value (productLineQuantityAmount inv);
     productLines := productLines inv;
     pageProductLines := pageProductLines inv;
     subTotalLabel := assignText key k_subTotalLabel value (subTotalLabel inv);
     taxLabel := assignText key k_taxLabel value (taxLabel inv);
     totalLabel := assignText key k_totalLabel value (totalLabel inv);
     currency := assignText key k_currency value (currency inv);
     notesLabel := assignText key k_notesLabel value (notesLabel inv);
     notes := assignText key k_notes value (notes inv);
     termLabel := assignText key k_termLabel value (termLabel inv);
     term := assignText key k_term value (term inv);
     umsatzsteuerLabel := assignText key k_umsatzsteuerLabel value (umsatzsteuerLabel inv);
     umsatzsteuer := assignText key k_umsatzsteuer value (umsatzsteuer inv);
     ibanLabel := assignText key k_ibanLabel value (ibanLabel inv);
     iban := assignText key k_iban value (iban inv);
     bicLabel := assignText key k_bicLabel value (bicLabel inv);
     bic := assignText key k_bic value (bic inv)
        |}
  end.

(** The text held under a key, [None] for the keys that hold no text. *)
Definition textOf (k : InvoiceKey) (inv : Invoice) : option string :=
  match k with
  | k_logo => Some (logo inv)
  | k_title => Some (title inv)
  | k_companyName => Some (companyName inv)
  | k_companyName2 => Some (companyName2 inv)
  | k_name => Some (name inv)
  | k_companyAddress => Some (companyAddress inv)
  | k_companyAddress2 => Some (companyAddress2 inv)
  | k_companyCountry => Some (companyCountry inv)
  | k_billTo => Some (billTo inv)
  | k_clientName => Some (clientName inv)
  | k_clientAddress => Some (clientAddress inv)
  | k_clientAddress2 => Some (clientAddress2 inv)
  | k_clientCountry => Some (clientCountry inv)
  | k_invoiceTitleLabel => Some (invoiceTitleLabel inv)
  | k_invoiceTitle => Some (invoiceTitle inv)
  | k_invoiceDateLabel => Some (invoiceDateLabel inv)
  | k_invoiceDate => Some (invoiceDate inv)
  | k_invoiceDueDateLabel => Some (invoiceDueDateLabel inv)
  | k_invoiceDueDate => Some (invoiceDueDate inv)
  | k_productLineDescription => Some (productLineDescription inv)
  | k_productLineQuantity => Some (productLineQuantity inv)
  | k_productLineQuantityRate => Some (productLineQuantityRate inv)
  | k_productLineQuantityAmount => Some (productLineQuantityAmount inv)
  | k_subTotalLabel => Some (subTotalLabel inv)
  | k_taxLabel => Some (taxLabel inv)
  | k_totalLabel => Some (totalLabel inv)
  | k_currency => Some (currency inv)
  | k_notesLabel => Some (notesLabel inv)
  | k_notes => Some (notes inv)
  | k_termLabel => Some (termLabel inv)
  | k_term => Some (term inv)
  | k_umsatzsteuerLabel => Some (umsatzsteuerLabel inv)
  | k_umsatzsteuer => Some (umsatzsteuer inv)
  | k_ibanLabel => Some (ibanLabel inv)
  | k_iban => Some (iban inv)
  | k_bicLabel => Some (bicLabel inv)
  | k_bic => Some (bic inv)
  | k_logoWidth | k_productLines | k_pageProductLines => None
  end.

Definition handleAddPage (st : State) : State :=
  {| invoice :=
       withPageProductLines (invoice st) (pagesOrEmpty (invoice st) ++ [[]])%list;
     subTotal := subTotal st;
     saleTax := saleTax st;
     qrCodeData := qrCodeData st;
     currentPage := totalPages st + 1;
     totalPages := totalPages st + 1 |}.

Definition handlePageChange (st : State) (page : Z) : State :=
  {| invoice := invoice st;
     subTotal := subTotal st;
     saleTax := saleTax st;
     qrCodeData := qrCodeData st;
     currentPage := page;
     totalPages := totalPages st |}.

(** The effect that follows the number of pages: [totalPages] grows to it
    and never shrinks. *)
Definition totalPagesEffect (st : State) : State :=
  match pageProductLines (invoice st) with
  | Some pages =>
      let pagesWithContent := Z.of_nat (List.length pages) in
      if totalPages st <? pagesWithContent then
        {| invoice := invoice st;
           subTotal := subTotal st;
           saleTax := saleTax st;
           qrCodeData := qrCodeData st;
           currentPage := currentPage st;
           totalPages := pagesWithContent |}
      else st
  | None => st
  end.

(** [handleAdd], with the blank line [initialProductLine] of
    [data/initialData] as a parameter.  On a page that exists the line goes
    to its end; on the index right after the last page a page with that one
    line is appended.  For any other index the array written has a hole or a
    property that is no index, which the pages of [State] do not hold:
    [None] stands for those. *)
Definition handleAdd (initialProductLine : ProductLine) (st : State) : option State :=
  let pageIndex := currentPage st - 1 in
  let newPageProductLines := pagesOrEmpty (invoice st) in
  match lookupZ newPageProductLines pageIndex with
  | Some items =>
      Some (setInvoice st
              (withPageProductLines (invoice st)
                 (updateZ newPageProductLines pageIndex (items ++ [initialProductLine])%list)))
  | None =>
      if pageIndex =? Z.of_nat (List.length newPageProductLines) then
        Some (setInvoice st
                (withPageProductLines (invoice st)
                   (newPageProductLines ++ [[initialProductLine]])%list))
      else None
  end.

(** *** The table *)

(** A row of the table: in the export a line without description leaves an
    empty element; otherwise the row shows the three texts of the line and
    its amount with a comma, and has a remove button in the editor. *)
Inductive RowView : Type :=
  | rowEmpty
  | rowShown (description quantity rate amount : string) (removable : bool).

Definition renderRow (pdfMode : bool) (productLine : ProductLine) : RowView :=
  if pdfMode && String.eqb (description productLine) "" then rowEmpty
  else
    rowShown (description productLine) (quantity productLine) (rate productLine)
      (replaceFirst "." "," (calculateAmount (quantity productLine) (rate productLine)))
      (negb pdfMode).

Definition renderTable (pdfMode : bool) (items : list ProductLine) : list RowView :=
  map (renderRow pdfMode) items.

Definition isShown (r : RowView) : bool :=
  match r with
  | rowEmpty => false
  | rowShown _ _ _ _ _ => true
  end.

(** *** The editor as a whole: one handler per event, then the effects *)

Inductive Action : Type :=
  | actChange (name : InvoiceKey) (value : FieldValue)
  | actProductLineChange (index : Z) (name : ProductLineKey) (value : string)
  | actRemove (i : Z)
  | actAdd
  | actAddPage
  | actPageChange (page : Z).

(** The controls the editor renders: a page button for each page from 1 to
    [totalPages], when there are at least two; the others are always there
    (row controls call their handler with the index of their row). *)
Definition offered (st : State) (a : Action) : Prop :=
  match a with
  | actPageChange page => 1 < totalPages st /\ 1 <= page <= totalPages st
  | _ => True
  end.

Definition handle (initialProductLine : ProductLine) (st : State) (a : Action) : option State :=
  match a with
  | actChange name value => Some (handleChange st name value)
  | actProductLineChange index name value =>
      Some (handleProductLineChange st index name value)
  | actRemove i => Some (handleRemove st i)
  | actAdd => handleAdd initialProductLine st
  | actAddPage => Some (handleAddPage st)
  | actPageChange page => Some (handlePageChange st page)
  end.

Definition perform (initialProductLine : ProductLine) (st : State) (a : Action) : option State :=
  option_map (fun st' => totalPagesEffect (recompute st')) (handle initialProductLine st a).

(** The states of the editor: the component created on an invoice, and what
    the controls offered lead to. *)
Inductive reachable (initialProductLine : ProductLine) (inv : Invoice) : State -> Prop :=
  | reach_mounted : reachable initialProductLine inv (mounted inv)
  | reach_step (st st' : State) (a : Action) :
      reachable initialProductLine inv st ->
      offered st a ->
      perform initialProductLine st a = Some st' ->
      reachable initialProductLine inv st'.

(** The selected page is one of the pages, and [totalPages] counts them. *)
Definition pagesInvariant (st : State) : Prop :=
  exists pages,
    pageProductLines (invoice st) = Some pages
    /\ totalPages st = Z.of_nat (List.length pages)
    /\ 1 <= currentPage st <= totalPages st.

(** ** The component before pages (the second, single-list [InvoicePage])

    The lines are the one list [productLines]; the handlers replace the
    invoice on every call. *)

(** [{ ...invoice, productLines: lines }]. *)
Definition withProductLines (inv : Invoice) (lines : list ProductLine) : Invoice :=
  {|
     logo := logo inv;
     logoWidth := logoWidth inv;
     title := title inv;
     companyName := companyName inv;
     companyName2 := companyName2 inv;
     name := name inv;
     companyAddress := companyAddress inv;
     companyAddress2 := companyAddress2 inv;
     companyCountry := companyCountry inv;
     billTo := billTo inv;
     clientName := clientName inv;
     clientAddress := clientAddress inv;
     clientAddress2 := clientAddress2 inv;
     clientCountry := clientCountry inv;
     invoiceTitleLabel := invoiceTitleLabel inv;
     invoiceTitle := invoiceTitle inv;
     invoiceDateLabel := invoiceDateLabel inv;
     invoiceDate := invoiceDate inv;
     invoiceDueDateLabel := invoiceDueDateLabel inv;
     invoiceDueDate := invoiceDueDate inv;
     productLineDescription := productLineDescription inv;
     productLineQuantity := productLineQuantity inv;
     productLineQuantityRate := productLineQuantityRate inv;
     productLineQuantityAmount := productLineQuantityAmount inv;
     productLines := lines;
     pageProductLines := pageProductLines inv;
     subTotalLabel := subTotalLabel inv;
     taxLabel := taxLabel inv;
     totalLabel := totalLabel inv;
     currency := currency inv;
     notesLabel := notesLabel inv;
     notes := notes inv;
     termLabel := termLabel inv;
     term := term inv;
     umsatzsteuerLabel := umsatzsteuerLabel inv;
     umsatzsteuer := umsatzsteuer inv;
     ibanLabel := ibanLabel inv;
     iban := iban inv;
     bicLabel := bicLabel inv;
     bic := bic inv
  |}.

(** [l.map((x, i) => f(i, x))], the indices counted from [start]. *)
Fixpoint mapIndexed {A B : Type} (f : Z -> A -> B) (l : list A) (start : Z) : list B :=
  match l with
  | [] => []
  | x :: t => f start x :: mapIndexed f t (start + 1)
  end.

Module Unpaged.

Definition handleProductLineChange
    (inv : Invoice) (index : Z) (name : ProductLineKey) (value : string) : Invoice :=
  withProductLines inv
    (mapIndexed
       (fun i productLine =>
          if i =? index then setField productLine name (editedField name value)
          else productLine)
       (productLines inv) 0).

Definition handleRemove (inv : Invoice) (i : Z) : Invoice :=
  withProductLines inv (removeFrom (productLines inv) 0 i).

Definition handleAdd (initialProductLine : ProductLine) (inv : Invoice) : Invoice :=
  withProductLines inv (productLines inv ++ [initialProductLine])%list.

Definition subTotalEffect (inv : Invoice) : number :=
  fold_left addLine (productLines inv) zero.

End Unpaged.

(** Whether a line has a description, which the export asks of the rows it shows. *)
Definition hasDescription (productLine : ProductLine) : bool :=
  negb (String.eqb (description productLine) "").

(** A number that is neither infinite nor NaN. *)
Definition isFinite (x : number) : bool :=
  match x with
  | S754_zero _ | S754_finite _ _ _ => true
  | _ => false
  end.

(** Whether [toFixed] writes a minus sign: on the numbers below zero. *)
Definition belowZero (x : number) : bool :=
  match x with
  | S754_finite s _ _ => s
  | _ => false
  end.

(** Sections 3 and 4.1 of the specification: a quantity and a rate are
    display texts in a locale format, the comma as decimal separator; their
    numeric value reads the comma as the decimal point. *)
Definition specNumericValue (text : string) : number :=
  parseFloat (replaceFirst "," "." text).

(** * Properties *)

(** ** Numbers: checks of the model against known values *)

Example toString_samples :
  map (fun s => toString (parseFloat s))
    ["1.5"; "0.1"; "12."; "1.50"; "abc"; "  42px"; "-0"; "1e21"; "1e-7"; "1,5"; "5e-324"]
  = ["1.5"; "0.1"; "12"; "1.5"; "NaN"; "42"; "0"; "1e+21"; "1e-7"; "1"; "5e-324"].
Proof. vm_compute. reflexivity. Qed.

Example toString_sum : toString (add (parseFloat "0.1") (parseFloat "0.2")) = "0.30000000000000004".
Proof. vm_compute. reflexivity. Qed.

Example toFixed_samples :
  map (fun s => toFixed (parseFloat s) 2)
    ["1.005"; "0.125"; "10.235"; "119"; "-0.001"; "-0"; "1e21"; "abc"; "-1.5"]
  = ["1.00"; "0.13"; "10.23"; "119.00"; "-0.00"; "0.00"; "1e+21"; "NaN"; "-1.50"].
Proof. vm_compute. reflexivity. Qed.

Example sepaTaxRate_literal : sepaTaxRate = parseFloat "0.19".
Proof. vm_compute. reflexivity. Qed.


Lemma sameValue_eq (x y : number) : sameValue x y = true <-> x = y.
Proof.
  destruct x as [a|a| |a m e], y as [b|b| |b m' e']; cbn [sameValue];
    try (split; [discriminate | intros H; inversion H]).
  - rewrite Bool.eqb_true_iff. split; [intros -> | intros [= ->]]; reflexivity.
  - rewrite Bool.eqb_true_iff. split; [intros -> | intros [= ->]]; reflexivity.
  - split; reflexivity.
  - rewrite !andb_true_iff, Bool.eqb_true_iff, Pos.eqb_eq, Z.eqb_eq.
    split; [intros [[-> ->] ->]; reflexivity | intros [= -> -> ->]; auto].
Qed.

Lemma closer_either (a b : candidate) : closer a b = a \/ closer a b = b.
Proof.
  unfold closer. destruct (cand_dist b <? cand_dist a); [now right|].
  destruct ((cand_dist b =? cand_dist a) && Z.even (cand_s b)); [now right | now left].
Qed.

Lemma closest_In (cs : list candidate) (c : candidate) :
  closest cs = Some c -> In c cs.
Proof.
  destruct cs as [|c0 cs]; [discriminate|]. cbn [closest]. intros [= <-].
  revert c0. induction cs as [|c1 cs IH]; intros c0; cbn [fold_left].
  - now left.
  - destruct (closer_either c0 c1) as [-> | ->].
    + destruct (IH c0) as [<- | H]; [now left | now right; right].
    + right. apply IH.
Qed.

(** The digits that [toString] prints read back to the number printed: the
    decimal [s * 10 ^ (n - k)] chosen rounds to it. *)
Lemma shortest_reads_back (x : number) (num den n0 : Z) (ks : list Z)
    (c : candidate) (k : Z) :
  shortest x num den n0 ks = Some (c, k) ->
  of_decimal false (cand_s c) (cand_n c - k) = x
  /\ 10 ^ (k - 1) <= cand_s c < 10 ^ k.
Proof.
  induction ks as [|k0 ks IH]; cbn [shortest]; [discriminate|].
  destruct (closest (candidates x num den n0 k0)) as [c0|] eqn:Hc.
  - intros [= <- <-]. apply closest_In in Hc. unfold candidates in Hc.
    apply filter_In in Hc as [_ Hc].
    apply andb_true_iff in Hc as [Hc Hsame].
    apply andb_true_iff in Hc as [Hlo Hhi].
    apply sameValue_eq in Hsame. apply Z.leb_le in Hlo. apply Z.ltb_lt in Hhi.
    auto.
  - exact IH.
Qed.

(** [toFixed] rounds to the nearest hundredth, the larger magnitude on a
    tie: with [m * 2 ^ e = num / den], the integer [n] chosen has
    [n - 100 * num / den] in the interval from -1/2 (excluded) to 1/2. *)
Lemma fixedInteger_nearest (s : bool) (m : positive) (e : Z) :
  let n := fixedInteger 2 (S754_finite s m e) in
  let num := if 0 <=? e then Zpos m * 2 ^ e else Zpos m in
  let den := if 0 <=? e then 1 else 2 ^ (- e) in
  - den < 2 * (n * den - 100 * num) <= den.
Proof.
  cbv zeta. unfold fixedInteger.
  change (10 ^ Z.of_nat 2) with 100.
  destruct (0 <=? e) eqn:He.
  - replace (Z.pos m * 2 ^ e * 100 * 1 - 100 * (Z.pos m * 2 ^ e)) with 0 by ring. lia.
  - apply Z.leb_gt in He.
    assert (Hd : 0 < 2 ^ (- e)) by (apply Z.pow_pos_nonneg; lia).
    set (d := 2 ^ (- e)) in *.
    set (N := Z.pos m * 100).
    pose proof (Z.div_mod (2 * N + d) (2 * d) ltac:(lia)) as Hdm.
    pose proof (Z.mod_pos_bound (2 * N + d) (2 * d) ltac:(lia)) as Hb.
    set (q := (2 * N + d) / (2 * d)) in *.
    replace (100 * Z.pos m) with N by (unfold N; ring).
    nia.
Qed.

(** ** Strings *)

Lemma append_assoc (a b c : string) : (a ++ b) ++ c = a ++ (b ++ c).
Proof. induction a as [|x a IH]; simpl; [reflexivity | now rewrite IH]. Qed.

Lemma orElse_empty (s : string) : orElse s "" = s.
Proof. destruct s; reflexivity. Qed.

(** ** The payload (C1, C3) *)

Lemma generateSepaQRData_lines (inv : Invoice) (sub : option number) :
  generateSepaQRData inv sub
  = buildPayload (bic inv) (orElse (name inv) (companyName inv)) (iban inv)
      (sepaTotal sub) "EUR" (orElse (invoiceTitle inv) "Rechnung").
Proof.
  unfold generateSepaQRData, buildPayload.
  rewrite !orElse_empty.
  cbn [joinLines].
  rewrite (append_assoc "EUR").
  reflexivity.
Qed.

(** The example of the specification: a subtotal of 100 gives a total of
    119.00 euros. *)
Example payload_round_trip :
  generateSepaQRData dollarInvoice (subTotal (mounted dollarInvoice))
  = "BCD
002
1
SCT
ABCDDEFG
Jane Doe
DE12...
EUR119.00


INV-1".
Proof. vm_compute. reflexivity. Qed.

(** C1, as stated, fails: on an invoice whose currency symbol is the dollar
    sign the amount line of the payload still starts with EUR, so the payload
    is not the eleven lines built with the invoice's own currency symbol. *)
Lemma payload_ignores_currency_symbol :
  generateSepaQRData dollarInvoice (subTotal (mounted dollarInvoice))
  <> buildPayload (bic dollarInvoice) (name dollarInvoice) (iban dollarInvoice)
       (sepaTotal (subTotal (mounted dollarInvoice)))
       (currency dollarInvoice) (invoiceTitle dollarInvoice).
Proof. vm_compute. discriminate. Qed.

(** C1, amended: for every invoice and subtotal the payload is exactly the
    eleven newline-joined lines BCD, 002, 1, SCT, the BIC, the recipient
    (the name, else the company name), the IBAN, the literal EUR followed by
    the total with two decimals, two empty lines, and the reference (the
    invoice title, else Rechnung); the export effect hands over the same
    text whenever it runs. *)
Theorem generateSepaQRData_eleven_lines (inv : Invoice) (sub : option number) :
  let payload :=
    joinLines
      [ "BCD"; "002"; "1"; "SCT"; bic inv;
        orElse (name inv) (companyName inv); iban inv;
        "EUR" ++ toFixed (sepaTotal sub) 2; ""; "";
        orElse (invoiceTitle inv) "Rechnung" ] in
  generateSepaQRData inv sub = payload
  /\ (qrEffect inv sub = Some payload \/ qrEffect inv sub = None)
  /\ buildPayload (bic inv) (orElse (name inv) (companyName inv)) (iban inv)
       (sepaTotal sub) "EUR" (orElse (invoiceTitle inv) "Rechnung") = payload.
Proof.
  cbv zeta.
  pose proof (generateSepaQRData_lines inv sub) as H.
  unfold buildPayload in H.
  split; [exact H | split; [| reflexivity]].
  unfold qrEffect.
  destruct (nonEmpty (iban inv) && nonEmpty (bic inv) && truthySubTotal sub).
  - left. now rewrite H.
  - right. reflexivity.
Qed.

Lemma initializePages_taxLabel (inv : Invoice) (label : string) :
  initializePages (withTaxLabel inv label) = withTaxLabel (initializePages inv) label.
Proof.
  unfold initializePages. cbn [pageProductLines withTaxLabel].
  destruct (pageProductLines inv) as [[|p ps]|]; reflexivity.
Qed.

(** C3, as stated, fails: when the line amounts are plus and minus infinity
    the subtotal is NaN, and subtotal + subtotal * 0.19 is NaN; the payload
    takes the subtotal as 0 and its amount line is EUR0.00. *)
Lemma sepa_amount_nan_counterexample :
  let inv := infinityInvoice in
  let s := subTotalEffect inv in
  s = NaN
  /\ subTotal (mounted inv) = Some s
  /\ add s (mul s (parseFloat "0.19")) = NaN
  /\ generateSepaQRData inv (Some s)
     = buildPayload (bic inv) (name inv) (iban inv) zero "EUR" (invoiceTitle inv)
  /\ generateSepaQRData inv (Some s)
     <> buildPayload (bic inv) (name inv) (iban inv)
          (add s (mul s (parseFloat "0.19"))) "EUR" (invoiceTitle inv).
Proof. vm_compute. repeat split. discriminate. Qed.

(** C3, amended: when the subtotal is a number other than zero, the amount
    of the payload is the subtotal plus the subtotal times the fixed rate
    0.19; when the subtotal is zero or NaN, or not yet computed, the amount
    is 0.  The tax label plays no part: an invoice and the same invoice
    under any other tax label give the same payload, in the editor and in
    the export effect. *)
Theorem sepa_amount_fixed_rate_of_subtotal (inv : Invoice) (label : string) :
  let s := subTotalEffect inv in
  let total := if truthy s then add s (mul s (parseFloat "0.19")) else zero in
  generateSepaQRData inv (Some s)
  = buildPayload (bic inv) (orElse (name inv) (companyName inv)) (iban inv)
      total "EUR" (orElse (invoiceTitle inv) "Rechnung")
  /\ generateSepaQRData inv None
     = buildPayload (bic inv) (orElse (name inv) (companyName inv)) (iban inv)
         zero "EUR" (orElse (invoiceTitle inv) "Rechnung")
  /\ generateSepaQRData (withTaxLabel inv label)
       (Some (subTotalEffect (withTaxLabel inv label)))
     = generateSepaQRData inv (Some s)
  /\ qrCode (renderFooter false (mounted (withTaxLabel inv label)))
     = qrCode (renderFooter false (mounted inv))
  /\ qrCodeData (mounted (withTaxLabel inv label)) = qrCodeData (mounted inv).
Proof.
  cbv zeta.
  split; [| split; [| split; [| split]]].
  - rewrite generateSepaQRData_lines. unfold sepaTotal, orZero.
    destruct (truthy (subTotalEffect inv)); reflexivity.
  - rewrite generateSepaQRData_lines. reflexivity.
  - reflexivity.
  - unfold mounted. rewrite initializePages_taxLabel. reflexivity.
  - unfold mounted. rewrite initializePages_taxLabel. reflexivity.
Qed.

(** ** Export pagination (C2) *)

Lemma firstn_plus {A : Type} (n m : nat) (l : list A) :
  firstn (n + m) l = (firstn n l ++ firstn m (skipn n l))%list.
Proof.
  revert l. induction n as [|n IH]; intros l.
  - reflexivity.
  - destruct l as [|x l]; simpl.
    + now rewrite firstn_nil.
    + now rewrite IH.
Qed.

(** Cutting [l] into [m] consecutive slices of [c] items gives, put back
    together, the first [m * c] items. *)
Lemma concat_slices {A : Type} (l : list A) (c m : nat) :
  List.concat
    (map (fun k => slice l (k * c) (Nat.min (k * c + c) (List.length l)))%nat (seq 0 m))
  = firstn (m * c) l.
Proof.
  induction m as [|m IH].
  - reflexivity.
  - rewrite seq_S, map_app, concat_app, IH. simpl.
    rewrite app_nil_r, (Nat.add_comm c (m * c)), firstn_plus.
    f_equal. unfold slice.
    destruct (Nat.le_gt_cases (List.length l) (m * c)) as [Hle|Hgt].
    + rewrite (skipn_all2 l Hle). now rewrite !firstn_nil.
    + destruct (Nat.le_gt_cases (m * c + c) (List.length l)) as [Hin|Hout].
      * rewrite Nat.min_l by exact Hin. f_equal. lia.
      * rewrite Nat.min_r by lia.
        rewrite !firstn_all2; try reflexivity; rewrite length_skipn; lia.
Qed.

Lemma ceilDiv_covers (n d : nat) : (0 < d)%nat -> (n <= ceilDiv n d * d)%nat.
Proof.
  intros Hd. unfold ceilDiv.
  pose proof (Nat.div_mod_eq (n + (d - 1)) d) as H.
  pose proof (Nat.mod_upper_bound (n + (d - 1)) d ltac:(lia)) as Hb.
  nia.
Qed.

(** What the export does hold: the legacy list [productLines] is cut into
    [max 1 (ceil (N / 20))] pages whose items, put back together, are that
    list; the header is on the first page only and the footer on the last
    page only. *)
Lemma renderPDFPages_chunks_productLines (st : State) :
  let pages := renderPDFPages true st in
  let N := List.length (productLines (invoice st)) in
  List.length pages = Nat.max 1 (ceilDiv N 20)
  /\ List.concat (map tableItems pages) = productLines (invoice st)
  /\ map showHeader pages = map (fun k => Nat.eqb k 0) (seq 0 (List.length pages))
  /\ map showFooter pages
     = map (fun k => Nat.eqb k (List.length pages - 1)) (seq 0 (List.length pages)).
Proof.
  cbv zeta. unfold renderPDFPages.
  assert (Hlen : List.length (map (pdfPage (invoice st)) (seq 0 (totalPDFPages (invoice st))))
                 = totalPDFPages (invoice st))
    by now rewrite length_map, length_seq.
  rewrite Hlen, !map_map. cbn [showHeader showFooter tableItems pdfPage].
  split; [reflexivity | split; [| split; reflexivity]].
  rewrite concat_slices.
  apply firstn_all2.
  unfold totalPDFPages, itemsPerPDFPage.
  pose proof (ceilDiv_covers (List.length (productLines (invoice st))) 20 ltac:(lia)).
  nia.
Qed.

(** Without items the export still has exactly one page, which is empty. *)
Lemma renderPDFPages_no_items (st : State) :
  productLines (invoice st) = [] ->
  renderPDFPages true st = [ {| showHeader := true; tableItems := []; showFooter := true |} ].
Proof.
  intros H. unfold renderPDFPages, pdfPage, slice. unfold totalPDFPages.
  rewrite H. reflexivity.
Qed.

(** C2 fails on the code: the export pages are cut from [productLines], not
    from the flattened pages.  On an invoice whose pages hold the line
    Widget while [productLines] holds an older row, the flattened items are
    the Widget line, yet the export renders one page with the older row;
    the subtotal, taken from the pages, is 10. *)
Theorem renderPDFPages_ignores_pages :
  let st := mounted editedInvoice in
  getCurrentPageItems true st = [line "Widget" "2" "5"]
  /\ List.concat (map tableItems (renderPDFPages true st)) = [line "Legacy row" "1" "1"]
  /\ subTotalEffect (invoice st) = of_Z 10.
Proof. vm_compute. repeat split. Qed.

(** ** The tax label (C4) *)

Lemma percent_not_digit (c : ascii) : Ascii.eqb c "%" = true -> isDigit c = false.
Proof. intros H. apply Ascii.eqb_eq in H. subst c. reflexivity. Qed.

Lemma append_char_assoc (run : string) (c : ascii) (ds : string) :
  (run ++ String c EmptyString) ++ ds = run ++ String c ds.
Proof. now rewrite append_assoc. Qed.

Lemma nonEmpty_append_char (run : string) (c : ascii) :
  nonEmpty (run ++ String c EmptyString) = true.
Proof. destruct run; reflexivity. Qed.

(** The scan of the specification and the search of the pattern, side by
    side, whatever run the scan has already read. *)
Lemma scanRuns_regexSearch (s : string) :
  forall run,
    scanRuns run s =
    match s with
    | EmptyString => None
    | String c r =>
        if isDigit c then
          match matchDigitsPercent s with
          | Some ds => Some (run ++ ds)
          | None => regexSearch r
          end
        else if Ascii.eqb c "%" && nonEmpty run then Some run
        else regexSearch r
    end.
Proof.
  induction s as [|c r IH]; intros run.
  - reflexivity.
  - cbn [scanRuns matchDigitsPercent].
    destruct (isDigit c) eqn:Hc.
    + rewrite IH. destruct r as [|c' r'].
      * reflexivity.
      * cbn [startsWithChar]. destruct (isDigit c') eqn:Hc'.
        -- assert (Hp : Ascii.eqb c' "%" = false).
           { destruct (Ascii.eqb c' "%") eqn:E; [|reflexivity].
             apply percent_not_digit in E. congruence. }
           rewrite Hp.
           destruct (matchDigitsPercent (String c' r')) as [ds|] eqn:Hm.
           ++ now rewrite append_char_assoc.
           ++ cbn [regexSearch]. now rewrite Hm.
        -- cbn [matchDigitsPercent]. rewrite Hc'.
           rewrite nonEmpty_append_char, andb_true_r.
           destruct (Ascii.eqb c' "%"); [reflexivity|].
           cbn [regexSearch matchDigitsPercent]. now rewrite Hc'.
    + destruct (Ascii.eqb c "%" && nonEmpty run); [reflexivity|].
      rewrite IH. destruct r as [|c' r']; [reflexivity|].
      cbn [regexSearch nonEmpty]. rewrite andb_false_r.
      destruct (isDigit c') eqn:Hc'.
      * now destruct (matchDigitsPercent (String c' r')).
      * cbn [matchDigitsPercent]. now rewrite Hc'.
Qed.

(** The pattern finds what the specification describes: the first run of
    digits that a percent sign follows at once. *)
Lemma regexSearch_first_run (label : string) :
  regexSearch label = firstDigitRunBeforePercent label.
Proof.
  unfold firstDigitRunBeforePercent. rewrite scanRuns_regexSearch.
  destruct label as [|c r]; [reflexivity|].
  cbn [regexSearch nonEmpty]. rewrite andb_false_r.
  destruct (isDigit c) eqn:Hc.
  - now destruct (matchDigitsPercent (String c r)).
  - cbn [matchDigitsPercent]. now rewrite Hc.
Qed.

Lemma matchDigitsPercent_digits (s ds : string) :
  matchDigitsPercent s = Some ds -> allDigits ds = true /\ nonEmpty ds = true.
Proof.
  revert ds. induction s as [|c r IH]; intros ds; cbn [matchDigitsPercent].
  - discriminate.
  - destruct (isDigit c) eqn:Hc; [|discriminate].
    destruct (matchDigitsPercent r) as [ds'|].
    + intros [= <-]. destruct (IH ds' eq_refl) as [Ha _].
      cbn [allDigits nonEmpty]. now rewrite Hc, Ha.
    + destruct (startsWithChar "%" r); [|discriminate].
      intros [= <-]. cbn [allDigits nonEmpty]. now rewrite Hc.
Qed.

Lemma regexSearch_digits (s ds : string) :
  regexSearch s = Some ds -> allDigits ds = true /\ nonEmpty ds = true.
Proof.
  induction s as [|c r IH]; cbn [regexSearch].
  - discriminate.
  - destruct (matchDigitsPercent (String c r)) as [ds'|] eqn:Hm.
    + intros [= <-]. exact (matchDigitsPercent_digits _ _ Hm).
    + exact IH.
Qed.

Lemma readDigits_allDigits (ds : string) :
  allDigits ds = true ->
  forall acc count,
    snd (fst (readDigits ds acc count)) = count + Z.of_nat (String.length ds)
    /\ snd (readDigits ds acc count) = EmptyString.
Proof.
  induction ds as [|c r IH]; cbn [allDigits readDigits String.length]; intros H acc count.
  - split; [cbn; lia | reflexivity].
  - apply andb_true_iff in H as [Hc Hr]. rewrite Hc.
    destruct (IH Hr (10 * acc + digitValue c) (count + 1)) as [H1 H2].
    split; [rewrite H1; lia | exact H2].
Qed.

Lemma digit_facts (c : ascii) :
  isDigit c = true ->
  isWhiteSpace c = false /\ Ascii.eqb c "+" = false /\ Ascii.eqb c "-" = false
  /\ c <> "I"%char.
Proof.
  intros H. repeat split.
  - unfold isDigit in H. unfold isWhiteSpace.
    apply andb_true_iff in H as [H1 H2].
    apply N.leb_le in H1. apply N.leb_le in H2.
    destruct (N.leb_spec (N_of_ascii c) 13); [lia|].
    destruct (N.eqb_spec (N_of_ascii c) 32); [lia|].
    destruct (N.eqb_spec (N_of_ascii c) 160); [lia|].
    now rewrite andb_false_r.
  - destruct (Ascii.eqb_spec c "+"); [subst; discriminate | reflexivity].
  - destruct (Ascii.eqb_spec c "-"); [subst; discriminate | reflexivity].
  - intros ->. discriminate.
Qed.

(** [parseFloat] on a run of digits is the number nearest to the natural
    number the digits write. *)
Lemma parseFloat_digit_run (ds : string) :
  allDigits ds = true -> nonEmpty ds = true ->
  parseFloat ds = of_decimal false (digitsValue ds) 0.
Proof.
  intros Ha Hn. destruct ds as [|c r]; [discriminate|].
  pose proof Ha as Ha'. cbn [allDigits] in Ha'. apply andb_true_iff in Ha' as [Hc _].
  destruct (digit_facts c Hc) as (Hw & Hplus & Hminus & HI).
  unfold parseFloat. cbn [trimStart]. rewrite Hw, Hplus, Hminus.
  unfold strUnsignedDecimalLiteral.
  replace (prefix "Infinity" (String c r)) with false
    by (cbn [prefix]; destruct (ascii_dec "I" c); [congruence | reflexivity]).
  unfold digitsValue.
  destruct (readDigits_allDigits (String c r) Ha 0 0) as [Hcount Hrest].
  destruct (readDigits (String c r) 0 0) as [[v n] rest]. cbn [fst snd] in *.
  subst rest. cbn [String.length] in Hcount.
  replace (n =? 0) with false by (symmetry; apply Z.eqb_neq; lia).
  reflexivity.
Qed.

(** C4, as stated, fails in its last sentence: when the line amounts are
    plus and minus infinity the subtotal is NaN; the tax amount is then 0,
    while subtotal * rate / 100 is NaN. *)
Lemma saleTax_guard_counterexample :
  let inv := infinityInvoice in
  subTotalEffect inv = NaN
  /\ saleTax (mounted inv) = Some zero
  /\ saleTax (mounted inv)
     <> Some (div (mul (subTotalEffect inv) (extractRatePercent (taxLabel inv))) (of_Z 100)).
Proof. vm_compute. repeat split. discriminate. Qed.

(** C4, amended: the rate is the number written by the first run of digits
    that a percent sign follows at once, and 0 when the label has none (19,
    0 and 7 on the three labels of the specification); the tax amount is
    subtotal * rate / 100 when the subtotal is a number other than zero, and
    0 when the subtotal is zero or NaN. *)
Theorem extractRatePercent_first_run (label : string) (s : number) :
  extractRatePercent label
  = match firstDigitRunBeforePercent label with
    | Some ds => of_decimal false (digitsValue ds) 0
    | None => zero
    end
  /\ extractRatePercent "VAT 19%" = of_Z 19
  /\ extractRatePercent "no tax" = zero
  /\ extractRatePercent "7% off, 19% VAT" = of_Z 7
  /\ saleTaxEffect (Some s) label
     = if truthy s then div (mul s (extractRatePercent label)) (of_Z 100) else zero.
Proof.
  split; [| repeat split].
  unfold extractRatePercent. rewrite <- regexSearch_first_run.
  destruct (regexSearch label) as [ds|] eqn:Hs; [|reflexivity].
  destruct (regexSearch_digits _ _ Hs) as [Ha Hn].
  now apply parseFloat_digit_run.
Qed.

(** ** Line amounts and the subtotal (C5, C6) *)

(** C5 fails on the code: the component stores a quantity typed as 1.5 in
    the locale format, as 1,5, and [calculateAmount] reads the stored text
    with [parseFloat], which stops at the comma.  At the rate 10 the amount
    of the line is 10.00 and the subtotal 10, where the product of the
    numeric values, 1.5 and 10, is 15.00. *)
Theorem calculateAmount_loses_stored_fraction :
  let st := handleProductLineChange (mounted dollarInvoice) 0 keyQuantity "1.5" in
  lookupZ (getCurrentPageItems false st) 0 = Some (line "Widget" "1,5" "10")
  /\ specNumericValue "1,5" = parseFloat "1.5"
  /\ toFixed (mul (specNumericValue "1,5") (specNumericValue "10")) 2 = "15.00"
  /\ calculateAmount "1,5" "10" = "10.00"
  /\ lineAmount "1,5" "10" <> mul (specNumericValue "1,5") (specNumericValue "10")
  /\ subTotalEffect (invoice st) = of_Z 10.
Proof. vm_compute. repeat split. discriminate. Qed.

Lemma fold_left_pages (pages : list (list ProductLine)) (acc : number) :
  fold_left (fun a pageItems => fold_left addLine pageItems a) pages acc
  = fold_left addLine (List.concat pages) acc.
Proof.
  revert acc. induction pages as [|p pages IH]; intros acc; simpl.
  - reflexivity.
  - now rewrite fold_left_app, IH.
Qed.

(** C6: the subtotal is the sum, from zero and in page-then-item order, of
    the unrounded line amounts of every line of every page; two groupings
    into pages of the same sequence of lines have the same subtotal. *)
Theorem subTotal_independent_of_grouping
    (inv : Invoice) (pages1 pages2 : list (list ProductLine)) :
  List.concat pages1 = List.concat pages2 ->
  subTotalEffect (withPageProductLines inv pages1)
  = fold_left (fun acc pl => add acc (lineAmount (quantity pl) (rate pl)))
      (List.concat pages1) zero
  /\ subTotalEffect (withPageProductLines inv pages1)
     = subTotalEffect (withPageProductLines inv pages2).
Proof.
  intros H. unfold subTotalEffect. cbn [pageProductLines withPageProductLines].
  rewrite !fold_left_pages. split; [reflexivity | now rewrite H].
Qed.

(** C6 on three lines, grouped as two and one, and as one, none and two. *)
Lemma subTotal_independent_of_grouping_witness :
  subTotalEffect (withPageProductLines dollarInvoice groupedTwoOne)
  = fold_left (fun acc pl => add acc (lineAmount (quantity pl) (rate pl))) threeLines zero
  /\ subTotalEffect (withPageProductLines dollarInvoice groupedTwoOne)
     = subTotalEffect (withPageProductLines dollarInvoice groupedOneTwo).
Proof.
  exact (subTotal_independent_of_grouping dollarInvoice groupedTwoOne groupedOneTwo eq_refl).
Defined.

(** An invoice without pages, or without lines, has the subtotal zero. *)
Lemma subTotal_no_lines (inv : Invoice) :
  pagesOrEmpty inv = [] \/ List.concat (pagesOrEmpty inv) = [] -> subTotalEffect inv = zero.
Proof.
  unfold subTotalEffect, pagesOrEmpty.
  destruct (pageProductLines inv) as [pages|]; [|reflexivity].
  rewrite fold_left_pages. intros [H|H]; now rewrite H.
Qed.

(** ** Arrays *)

Section ArrayFacts.
Context {A : Type}.
Implicit Types (l : list A) (x y : A).

Lemma nth_error_updateNth l (n : nat) x y :
  nth_error l n = Some y -> nth_error (updateNth l n x) n = Some x.
Proof.
  revert n. induction l as [|h t IH]; intros [|n]; simpl; try discriminate.
  - reflexivity.
  - apply IH.
Qed.

Lemma lookupZ_updateZ l (i : Z) x y :
  lookupZ l i = Some y -> lookupZ (updateZ l i x) i = Some x.
Proof.
  unfold lookupZ, updateZ. destruct (i <? 0); [discriminate|].
  apply nth_error_updateNth.
Qed.

Lemma lookupZ_nil (i : Z) : lookupZ (@nil A) i = None.
Proof. unfold lookupZ. destruct (i <? 0); [reflexivity|]. now destruct (Z.to_nat i). Qed.

Lemma lookupZ_inside l (i : Z) x :
  lookupZ l i = Some x -> 0 <= i < Z.of_nat (List.length l).
Proof.
  unfold lookupZ. destruct (Z.ltb_spec i 0) as [Hneg|Hpos]; [discriminate|]. intros H.
  assert (Hn : nth_error l (Z.to_nat i) <> None) by congruence.
  apply nth_error_Some in Hn. lia.
Qed.

Lemma length_updateNth l (n : nat) x : List.length (updateNth l n x) = List.length l.
Proof.
  revert n. induction l as [|h t IH]; intros [|n]; simpl; try reflexivity.
  now rewrite IH.
Qed.
End ArrayFacts.

(** ** Editing a quantity or a rate (C7) *)

Lemma lastChar_cons (c : ascii) (r : string) :
  nonEmpty r = true -> lastChar (String c r) = lastChar r.
Proof. destruct r; [discriminate | reflexivity]. Qed.

Lemma lastCharIs_nonEmpty (c : ascii) (s : string) :
  lastCharIs c s = true -> nonEmpty s = true.
Proof. destruct s; [discriminate | reflexivity]. Qed.

(** A text that ends in a zero right after a period has a zero as its last
    character and has a period. *)
Lemma endsWith_period_zero (s : string) :
  endsWith ".0" s = true -> lastCharIs "0" s = true /\ includes "." s = true.
Proof.
  induction s as [|c r IH]; cbn [endsWith]; intros H.
  - discriminate.
  - apply orb_true_iff in H as [H|H].
    + apply String.eqb_eq in H. rewrite <- H. split; reflexivity.
    + destruct (IH H) as [Hl Hi]. split.
      * unfold lastCharIs. rewrite lastChar_cons by exact (lastCharIs_nonEmpty _ _ Hl).
        exact Hl.
      * cbn [includes]. rewrite Hi. apply orb_true_r.
Qed.

Lemma specKeepsRawText_keepsRawText (value : string) :
  specKeepsRawText value = true -> keepsRawText value = true.
Proof.
  unfold specKeepsRawText, keepsRawText. intros H.
  apply orb_true_iff in H as [H|H].
  - now rewrite H.
  - destruct (endsWith_period_zero value H) as [Hl Hi].
    rewrite Hl, Hi. apply orb_true_r.
Qed.

(** C7, as stated, fails: the text 1.50 neither ends with the separator nor
    in a zero right after a separator, so the specification displays the
    number read from it, 1,5; the component keeps the raw text 1.50. *)
Lemma raw_text_counterexample :
  let st := handleProductLineChange (mounted dollarInvoice) 0 keyQuantity "1.50" in
  specKeepsRawText "1.50" = false
  /\ specDisplayText "1.50" = "1,5"
  /\ option_map quantity (lookupZ (getCurrentPageItems false st) 0) = Some "1.50"
  /\ option_map quantity (lookupZ (getCurrentPageItems false st) 0)
     <> Some (specDisplayText "1.50").
Proof. vm_compute. repeat split. discriminate. Qed.

(** C7, amended: editing the quantity or the rate of a line of the selected
    page stores the raw text when its last character is a period, or when
    its last character is a zero and the text has a period anywhere (so
    also when it ends in a zero right after a period); otherwise it stores
    the text of the number read by [parseFloat], 0 when that is NaN or
    zero, with the period replaced by a comma.  The text 12. is stored as
    it is and is read as 12 by the aggregation. *)
Theorem handleProductLineChange_stored_text
    (st : State) (index : Z) (name : ProductLineKey) (value : string)
    (productLine : ProductLine) :
  name <> keyDescription ->
  lookupZ (getCurrentPageItems false st) index = Some productLine ->
  let st' := handleProductLineChange st index name value in
  let stored :=
    if lastCharIs "." value || (lastCharIs "0" value && includes "." value)
    then value
    else
      replaceFirst "." ","
        (toString (if truthy (parseFloat value) then parseFloat value else zero)) in
  lookupZ (getCurrentPageItems false st') index = Some (setField productLine name stored)
  /\ (specKeepsRawText value = true -> stored = value)
  /\ editedField keyQuantity "12." = "12."
  /\ parseFloat "12." = of_Z 12
  /\ lineAmount "12." "1" = of_Z 12.
Proof.
  intros Hname Hitem. cbv zeta.
  split; [| split; [| repeat split]].
  - unfold handleProductLineChange, getCurrentPageItems in *.
    destruct (lookupZ (pagesOrEmpty (invoice st)) (currentPage st - 1))
      as [pageItems|] eqn:Hpage; [| now rewrite lookupZ_nil in Hitem].
    rewrite Hitem.
    cbn [invoice setInvoice currentPage pagesOrEmpty pageProductLines withPageProductLines].
    rewrite (lookupZ_updateZ _ _ _ _ Hpage).
    rewrite (lookupZ_updateZ _ _ _ _ Hitem).
    destruct name; [contradiction | reflexivity | reflexivity].
  - intros H. apply specKeepsRawText_keepsRawText in H.
    unfold keepsRawText in H. now rewrite H.
Qed.

(** C7 on the invoice with one line: the text 12. typed as the quantity of
    that line is stored as it is. *)
Lemma handleProductLineChange_stored_text_witness :
  lookupZ
    (getCurrentPageItems false
       (handleProductLineChange (mounted dollarInvoice) 0 keyQuantity "12.")) 0
  = Some (line "Widget" "12." "10").
Proof.
  exact (proj1 (handleProductLineChange_stored_text (mounted dollarInvoice) 0 keyQuantity
                  "12." (line "Widget" "10" "10")
                  ltac:(discriminate) eq_refl)).
Defined.

(** ** When a payload is made (C8) *)

(** C8, as stated, fails: with both banking fields filled and no line the
    subtotal is zero, the export effect does not run, and the exported
    footer has no QR code. *)
Lemma qrEffect_zero_subtotal_counterexample :
  let inv := noLinesInvoice in
  nonEmpty (iban inv) = true
  /\ nonEmpty (bic inv) = true
  /\ qrEffect inv (subTotal (mounted inv)) = None
  /\ qrCode (renderFooter true (mounted inv)) = qrAbsent.
Proof. vm_compute. repeat split. Qed.

(** C8, amended: in the editor a payload is made exactly when the IBAN and
    the BIC are both non-empty, whatever the subtotal; the export effect
    makes one exactly when the IBAN and the BIC are both non-empty and the
    subtotal is neither zero nor NaN.  Otherwise there is no payload: the
    footer holds no QR code, nothing fails. *)
Theorem payload_generation_conditions (st : State) (inv : Invoice) (sub : option number) :
  ((exists value, qrCode (renderFooter false st) = qrCanvas value)
   <-> nonEmpty (iban (invoice st)) = true /\ nonEmpty (bic (invoice st)) = true)
  /\ (qrCode (renderFooter false st)
      = if nonEmpty (iban (invoice st)) && nonEmpty (bic (invoice st))
        then qrCanvas (generateSepaQRData (invoice st) (subTotal st))
        else qrAbsent)
  /\ ((exists qrData, qrEffect inv sub = Some qrData)
      <-> nonEmpty (iban inv) = true /\ nonEmpty (bic inv) = true
          /\ truthySubTotal sub = true)
  /\ (qrEffect inv sub
      = if nonEmpty (iban inv) && nonEmpty (bic inv) && truthySubTotal sub
        then Some (generateSepaQRData inv sub)
        else None).
Proof.
  split; [| split; [reflexivity | split; [| reflexivity]]].
  - unfold renderFooter. cbn [qrCode].
    destruct (nonEmpty (iban (invoice st))), (nonEmpty (bic (invoice st))); cbn [andb];
      split;
      try (intros [value H]; discriminate H);
      try (intros [H1 H2]; discriminate);
      try (intros _; split; reflexivity);
      try (intros _; eexists; reflexivity).
  - unfold qrEffect.
    destruct (nonEmpty (iban inv)), (nonEmpty (bic inv)), (truthySubTotal sub); cbn [andb];
      split;
      try (intros [qrData H]; discriminate H);
      try (intros (H1 & H2 & H3); discriminate);
      try (intros _; repeat split; reflexivity);
      try (intros _; eexists; reflexivity).
Qed.

(** ** The displayed amounts (C9) *)

(** C9, as stated, fails: with a subtotal of 0.004 and a tax of 0.002 the
    three amounts are displayed as 0,00, 0,00 and 0,01: the displayed total
    is one hundredth more than the displayed subtotal plus the displayed
    tax. *)
Lemma displayed_total_counterexample :
  let st := mounted roundingInvoice in
  let s := subTotalEffect roundingInvoice in
  let t := saleTaxEffect (Some s) (taxLabel roundingInvoice) in
  subTotal st = Some s
  /\ saleTax st = Some t
  /\ subTotalText (renderFooter false st) = Some "0,00"
  /\ saleTaxText (renderFooter false st) = Some "0,00"
  /\ totalText (renderFooter false st) = "0,01"
  /\ displayedCents (totalValue st) <> displayedCents s + displayedCents t.
Proof. vm_compute. repeat split. discriminate. Qed.

(** C9, amended: the total is the sum of the unrounded subtotal and the
    unrounded tax, and each of the three amounts is displayed by the same
    rule, [toFixed] with two digits (the nearest hundredth, half away from
    zero) with the period replaced by a comma; the displayed total is the
    rounding of that sum, not the sum of the two displayed amounts. *)
Theorem displayed_total_rounds_the_sum (pdfMode : bool) (inv : Invoice) :
  let st := mounted inv in
  let s := subTotalEffect (invoice st) in
  let t := saleTaxEffect (Some s) (taxLabel (invoice st)) in
  totalValue st = add s t
  /\ subTotalText (renderFooter pdfMode st) = Some (replaceFirst "." "," (toFixed s 2))
  /\ saleTaxText (renderFooter pdfMode st) = Some (replaceFirst "." "," (toFixed t 2))
  /\ totalText (renderFooter pdfMode st) = replaceFirst "." "," (toFixed (add s t) 2).
Proof. cbv zeta. repeat split. Qed.

(** ** Edits outside the selected page (C10) *)

(** C10: editing a field of a line at an index that the selected page does
    not have (also when that page does not exist), and removing a line when
    the selected page does not exist, leave the whole state, the invoice
    with it, as it was. *)
Theorem edits_outside_the_page_change_nothing
    (st : State) (index i : Z) (name : ProductLineKey) (value : string) :
  (lookupZ (getCurrentPageItems false st) index = None ->
   handleProductLineChange st index name value = st)
  /\ (lookupZ (pagesOrEmpty (invoice st)) (currentPage st - 1) = None ->
      handleRemove st i = st).
Proof.
  split.
  - unfold handleProductLineChange, getCurrentPageItems. intros H. now rewrite H.
  - unfold handleRemove. intros H. now rewrite H.
Qed.

(** C10 on the invoice with one line on its only page: an edit of the sixth
    line of the first page, and a removal while a third page is selected. *)
Lemma edits_outside_the_page_change_nothing_witness :
  handleProductLineChange (mounted dollarInvoice) 5 keyQuantity "3" = mounted dollarInvoice
  /\ handleRemove onMissingPage 0 = onMissingPage.
Proof.
  split.
  - exact (proj1 (edits_outside_the_page_change_nothing (mounted dollarInvoice) 5 0
                    keyQuantity "3") eq_refl).
  - exact (proj2 (edits_outside_the_page_change_nothing onMissingPage 0 0
                    keyDescription "") eq_refl).
Defined.

(** On a page that exists, removing a line takes out the line at that index
    and no other; an index outside the page removes nothing. *)
Lemma handleRemove_on_page (st : State) (i : Z) (pageItems : list ProductLine) :
  lookupZ (pagesOrEmpty (invoice st)) (currentPage st - 1) = Some pageItems ->
  getCurrentPageItems false (handleRemove st i) = removeFrom pageItems 0 i.
Proof.
  intros H. unfold handleRemove, getCurrentPageItems. rewrite H.
  cbn [invoice setInvoice currentPage pagesOrEmpty pageProductLines withPageProductLines].
  now rewrite (lookupZ_updateZ _ _ _ _ H).
Qed.

(** An edit of a line never adds or removes a line of the selected page. *)
Lemma handleProductLineChange_keeps_line_count
    (st : State) (index : Z) (name : ProductLineKey) (value : string) :
  List.length (getCurrentPageItems false (handleProductLineChange st index name value))
  = List.length (getCurrentPageItems false st).
Proof.
  unfold handleProductLineChange, getCurrentPageItems.
  destruct (lookupZ (pagesOrEmpty (invoice st)) (currentPage st - 1))
    as [pageItems|] eqn:Hpage.
  - destruct (lookupZ pageItems index) as [productLine|] eqn:Hitem.
    + cbn [invoice setInvoice currentPage pagesOrEmpty pageProductLines withPageProductLines].
      rewrite (lookupZ_updateZ _ _ _ _ Hpage).
      unfold updateZ. destruct (index <? 0); [reflexivity | apply length_updateNth].
    + now rewrite Hpage.
  - rewrite lookupZ_nil. now rewrite Hpage.
Qed.

(** * Further properties of the component *)

(** ** More on arrays *)

Section MoreArrayFacts.
Context {A : Type}.
Implicit Types (l : list A) (x y : A).

Lemma nth_error_updateNth_other l (n k : nat) x :
  n <> k -> nth_error (updateNth l n x) k = nth_error l k.
Proof.
  revert n k. induction l as [|h t IH]; intros [|n] [|k] H; simpl; try reflexivity.
  - contradiction.
  - apply IH. congruence.
Qed.

Lemma lookupZ_updateZ_other l (i j : Z) x :
  i <> j -> lookupZ (updateZ l i x) j = lookupZ l j.
Proof.
  intros H. unfold lookupZ, updateZ.
  destruct (Z.ltb_spec j 0); [reflexivity|].
  destruct (Z.ltb_spec i 0); [reflexivity|].
  apply nth_error_updateNth_other. lia.
Qed.

Lemma length_updateZ l (i : Z) x : List.length (updateZ l i x) = List.length l.
Proof. unfold updateZ. destruct (i <? 0); [reflexivity | apply length_updateNth]. Qed.

Lemma updateNth_same l (n : nat) x : nth_error l n = Some x -> updateNth l n x = l.
Proof.
  revert n. induction l as [|h t IH]; intros [|n]; simpl; try discriminate.
  - now intros [= ->].
  - intros H. now rewrite IH.
Qed.

Lemma updateZ_same l (i : Z) x : lookupZ l i = Some x -> updateZ l i x = l.
Proof.
  unfold lookupZ, updateZ. destruct (i <? 0); [discriminate | apply updateNth_same].
Qed.

Lemma updateNth_twice l (n : nat) x y : updateNth (updateNth l n x) n y = updateNth l n y.
Proof.
  revert n. induction l as [|h t IH]; intros [|n]; simpl; try reflexivity.
  now rewrite IH.
Qed.

Lemma updateZ_twice l (i : Z) x y : updateZ (updateZ l i x) i y = updateZ l i y.
Proof. unfold updateZ. destruct (i <? 0); [reflexivity | apply updateNth_twice]. Qed.

Lemma lookupZ_app_end l x : lookupZ (l ++ [x]) (Z.of_nat (List.length l)) = Some x.
Proof.
  unfold lookupZ. destruct (Z.ltb_spec (Z.of_nat (List.length l)) 0); [lia|].
  rewrite Nat2Z.id, nth_error_app2 by lia. now rewrite Nat.sub_diag.
Qed.

Lemma lookupZ_outside l (i : Z) :
  lookupZ l i = None <-> i < 0 \/ Z.of_nat (List.length l) <= i.
Proof.
  unfold lookupZ. destruct (Z.ltb_spec i 0) as [Hneg|Hpos].
  - split; [now left | reflexivity].
  - rewrite nth_error_None. lia.
Qed.

Lemma removeFrom_outside l (start i : Z) :
  i < start \/ start + Z.of_nat (List.length l) <= i -> removeFrom l start i = l.
Proof.
  revert start. induction l as [|h t IH]; intros start H; cbn [removeFrom]; [reflexivity|].
  cbn [List.length] in H.
  destruct (Z.eqb_spec start i); [lia|]. f_equal. apply IH. lia.
Qed.

(** The filter by index takes out the item at [i], counted from [start],
    and nothing else. *)
Lemma removeFrom_inside l (start i : Z) :
  start <= i < start + Z.of_nat (List.length l) ->
  removeFrom l start i
  = (firstn (Z.to_nat (i - start)) l ++ skipn (S (Z.to_nat (i - start))) l)%list.
Proof.
  revert start. induction l as [|h t IH]; intros start H; cbn [List.length] in H.
  - lia.
  - cbn [removeFrom]. destruct (Z.eqb_spec start i) as [->|Hne].
    + rewrite Z.sub_diag. cbn [Z.to_nat firstn skipn app].
      apply removeFrom_outside. lia.
    + replace (Z.to_nat (i - start)) with (S (Z.to_nat (i - (start + 1)))) by lia.
      cbn [firstn skipn app]. f_equal. apply IH. lia.
Qed.

Lemma removeFrom_app_end l x :
  removeFrom (l ++ [x]) 0 (Z.of_nat (List.length l)) = l.
Proof.
  rewrite removeFrom_inside by (rewrite length_app; cbn [List.length]; lia).
  rewrite Z.sub_0_r, Nat2Z.id.
  rewrite firstn_app, Nat.sub_diag, firstn_all. cbn [firstn].
  rewrite skipn_all2 by (rewrite length_app; cbn [List.length]; lia).
  now rewrite !app_nil_r.
Qed.

Lemma mapIndexed_update (f : A -> A) l (start index : Z) :
  mapIndexed (fun i x => if i =? index then f x else x) l start
  = match lookupZ l (index - start) with
    | Some x => updateZ l (index - start) (f x)
    | None => l
    end.
Proof.
  revert start. induction l as [|h t IH]; intros start; cbn [mapIndexed].
  - now rewrite lookupZ_nil.
  - rewrite IH. unfold lookupZ, updateZ.
    destruct (Z.eqb_spec start index) as [->|Hne].
    + rewrite Z.sub_diag. cbn.
      replace (index - (index + 1)) with (-1) by lia. reflexivity.
    + destruct (Z.ltb_spec (index - start) 0) as [Hlt|Hge].
      * destruct (Z.ltb_spec (index - (start + 1)) 0); [reflexivity | lia].
      * destruct (Z.ltb_spec (index - (start + 1)) 0); [lia|].
        replace (Z.to_nat (index - start)) with (S (Z.to_nat (index - (start + 1)))) by lia.
        cbn [nth_error updateNth].
        destruct (nth_error t (Z.to_nat (index - (start + 1)))); reflexivity.
Qed.
End MoreArrayFacts.

(** ** Pages and lines *)

Lemma withPageProductLines_same (inv : Invoice) (pages : list (list ProductLine)) :
  pageProductLines inv = Some pages -> withPageProductLines inv pages = inv.
Proof. destruct inv. cbn. now intros ->. Qed.

Lemma pagesOrEmpty_lookup (inv : Invoice) (i : Z) (items : list ProductLine) :
  lookupZ (pagesOrEmpty inv) i = Some items ->
  pageProductLines inv = Some (pagesOrEmpty inv).
Proof.
  unfold pagesOrEmpty. destruct (pageProductLines inv); [reflexivity|].
  now rewrite lookupZ_nil.
Qed.

Lemma pagesOrEmpty_with (inv : Invoice) (pages : list (list ProductLine)) :
  pagesOrEmpty (withPageProductLines inv pages) = pages.
Proof. reflexivity. Qed.

Lemma subTotalEffect_concat (inv : Invoice) :
  subTotalEffect inv = fold_left addLine (List.concat (pagesOrEmpty inv)) zero.
Proof.
  unfold subTotalEffect, pagesOrEmpty.
  destruct (pageProductLines inv); [apply fold_left_pages | reflexivity].
Qed.

(** X1: Adding a page changes no amount and no exported row: the subtotal, the
    flattened lines and the export pages are those of before. *)
Theorem handleAddPage_keeps_lines (st : State) :
  subTotalEffect (invoice (handleAddPage st)) = subTotalEffect (invoice st)
  /\ getCurrentPageItems true (handleAddPage st) = getCurrentPageItems true st
  /\ renderPDFPages true (handleAddPage st) = renderPDFPages true st
  /\ List.length (pagesOrEmpty (invoice (handleAddPage st)))
     = S (List.length (pagesOrEmpty (invoice st))).
Proof.
  assert (Hflat : List.concat (pagesOrEmpty (invoice (handleAddPage st)))
                  = List.concat (pagesOrEmpty (invoice st))).
  { cbn [handleAddPage invoice]. rewrite pagesOrEmpty_with, concat_app.
    cbn [List.concat]. now rewrite !app_nil_r. }
  split; [| split; [| split]].
  - now rewrite !subTotalEffect_concat, Hflat.
  - exact Hflat.
  - reflexivity.
  - cbn [handleAddPage invoice]. rewrite pagesOrEmpty_with, length_app.
    cbn [List.length]. lia.
Qed.

(** X3: Adding a line and then removing the line just added gives back the
    state as it was, when the selected page exists. *)
Theorem handleAdd_then_handleRemove
    (initialProductLine : ProductLine) (st : State) (items : list ProductLine) :
  lookupZ (pagesOrEmpty (invoice st)) (currentPage st - 1) = Some items ->
  exists st',
    handleAdd initialProductLine st = Some st'
    /\ getCurrentPageItems false st' = (items ++ [initialProductLine])%list
    /\ handleRemove st' (Z.of_nat (List.length items)) = st.
Proof.
  intros Hpage. unfold handleAdd. rewrite Hpage. eexists. split; [reflexivity|].
  pose proof (lookupZ_updateZ _ _ (items ++ [initialProductLine])%list _ Hpage) as Hnew.
  split.
  - unfold getCurrentPageItems.
    cbn [invoice setInvoice currentPage]. rewrite pagesOrEmpty_with. now rewrite Hnew.
  - unfold handleRemove.
    cbn [invoice setInvoice currentPage]. rewrite pagesOrEmpty_with, Hnew.
    rewrite removeFrom_app_end, updateZ_twice, (updateZ_same _ _ _ Hpage).
    destruct st as [inv s t q cp tp]. cbn [setInvoice invoice subTotal saleTax
      qrCodeData currentPage totalPages] in *.
    f_equal.
    pose proof (pagesOrEmpty_lookup _ _ _ Hpage) as Hsome.
    destruct inv. cbn in *. now rewrite Hsome.
Qed.

(** The round trip on the invoice with one line. *)
Lemma handleAdd_then_handleRemove_witness :
  exists st',
    handleAdd (line "" "1" "0.00") (mounted dollarInvoice) = Some st'
    /\ getCurrentPageItems false st' = [line "Widget" "10" "10"; line "" "1" "0.00"]
    /\ handleRemove st' 1 = mounted dollarInvoice.
Proof.
  exact (handleAdd_then_handleRemove (line "" "1" "0.00") (mounted dollarInvoice)
           [line "Widget" "10" "10"] eq_refl).
Defined.

(** X4: Removing a line of the selected page takes out the line at that index
    and keeps the others in their order; an index that the page does not
    have removes nothing.  The other pages stay as they were. *)
Theorem handleRemove_removes_one_line (st : State) (i : Z) (items : list ProductLine) :
  lookupZ (pagesOrEmpty (invoice st)) (currentPage st - 1) = Some items ->
  let st' := handleRemove st i in
  (0 <= i < Z.of_nat (List.length items) ->
   getCurrentPageItems false st'
   = (firstn (Z.to_nat i) items ++ skipn (S (Z.to_nat i)) items)%list)
  /\ (i < 0 \/ Z.of_nat (List.length items) <= i ->
      getCurrentPageItems false st' = items)
  /\ (forall p, p <> currentPage st - 1 ->
      lookupZ (pagesOrEmpty (invoice st')) p = lookupZ (pagesOrEmpty (invoice st)) p)
  /\ List.length (pagesOrEmpty (invoice st')) = List.length (pagesOrEmpty (invoice st)).
Proof.
  intros Hpage. cbv zeta.
  rewrite (handleRemove_on_page st i items Hpage).
  unfold handleRemove. rewrite Hpage. cbn [invoice setInvoice]. rewrite pagesOrEmpty_with.
  split; [| split; [| split]].
  - intros Hi. rewrite removeFrom_inside by lia. now rewrite Z.sub_0_r.
  - intros Hi. apply removeFrom_outside. lia.
  - intros p Hp. apply lookupZ_updateZ_other. congruence.
  - apply length_updateZ.
Qed.

(** Removing the first of the two lines of a page, and a removal at an
    index the page does not have. *)
Lemma handleRemove_removes_one_line_witness :
  getCurrentPageItems false
    (handleRemove (mounted (withPageProductLines dollarInvoice groupedTwoOne)) 0)
  = [line "Ink" "2" "0.10"]
  /\ getCurrentPageItems false
       (handleRemove (mounted (withPageProductLines dollarInvoice groupedTwoOne)) 7)
     = [line "Paper" "3" "4.50"; line "Ink" "2" "0.10"].
Proof.
  pose proof (handleRemove_removes_one_line
                (mounted (withPageProductLines dollarInvoice groupedTwoOne)) 0
                [line "Paper" "3" "4.50"; line "Ink" "2" "0.10"] eq_refl) as H0.
  pose proof (handleRemove_removes_one_line
                (mounted (withPageProductLines dollarInvoice groupedTwoOne)) 7
                [line "Paper" "3" "4.50"; line "Ink" "2" "0.10"] eq_refl) as H7.
  split.
  - exact (proj1 H0 ltac:(cbn; lia)).
  - exact (proj1 (proj2 H7) ltac:(cbn; lia)).
Defined.

(** X5: An edit of a line touches that line only: the other lines of the
    selected page, the other pages and the number of pages stay as they
    were, whatever the field and the text. *)
Theorem handleProductLineChange_touches_one_line
    (st : State) (index : Z) (name : ProductLineKey) (value : string) :
  let st' := handleProductLineChange st index name value in
  (forall j, j <> index ->
     lookupZ (getCurrentPageItems false st') j = lookupZ (getCurrentPageItems false st) j)
  /\ (forall p, p <> currentPage st - 1 ->
      lookupZ (pagesOrEmpty (invoice st')) p = lookupZ (pagesOrEmpty (invoice st)) p)
  /\ List.length (pagesOrEmpty (invoice st')) = List.length (pagesOrEmpty (invoice st))
  /\ List.length (getCurrentPageItems false st')
     = List.length (getCurrentPageItems false st).
Proof.
  cbv zeta.
  pose proof (handleProductLineChange_keeps_line_count st index name value) as Hcount.
  revert Hcount. unfold handleProductLineChange, getCurrentPageItems.
  destruct (lookupZ (pagesOrEmpty (invoice st)) (currentPage st - 1))
    as [pageItems|] eqn:Hpage.
  - destruct (lookupZ pageItems index) as [productLine|] eqn:Hitem.
    + cbn [invoice setInvoice currentPage]. rewrite pagesOrEmpty_with.
      rewrite (lookupZ_updateZ _ _ _ _ Hpage).
      intros Hcount. split; [| split; [| split]].
      * intros j Hj. apply lookupZ_updateZ_other. congruence.
      * intros p Hp. apply lookupZ_updateZ_other. congruence.
      * apply length_updateZ.
      * exact Hcount.
    + rewrite Hpage. repeat split; reflexivity.
  - rewrite lookupZ_nil, Hpage. repeat split; reflexivity.
Qed.

(** An edit of the first of two lines leaves the second as it was. *)
Lemma handleProductLineChange_touches_one_line_witness :
  lookupZ
    (getCurrentPageItems false
       (handleProductLineChange (mounted (withPageProductLines dollarInvoice groupedTwoOne))
          0 keyQuantity "7")) 1
  = Some (line "Ink" "2" "0.10").
Proof.
  exact (proj1 (handleProductLineChange_touches_one_line
                  (mounted (withPageProductLines dollarInvoice groupedTwoOne))
                  0 keyQuantity "7") 1 ltac:(discriminate)).
Defined.

Lemma fold_left_addLine_amounts (l : list ProductLine) (acc : number) :
  fold_left addLine l acc
  = fold_left add (map (fun pl => lineAmount (quantity pl) (rate pl)) l) acc.
Proof.
  revert acc. induction l as [|pl l IH]; intros acc; cbn [fold_left map].
  - reflexivity.
  - apply IH.
Qed.

Lemma map_updateNth {A B : Type} (f : A -> B) (l : list A) (n : nat) (x : A) :
  map f (updateNth l n x) = updateNth (map f l) n (f x).
Proof.
  revert n. induction l as [|h t IH]; intros [|n]; cbn [updateNth map]; try reflexivity.
  now rewrite IH.
Qed.

Lemma map_updateZ {A B : Type} (f : A -> B) (l : list A) (i : Z) (x : A) :
  map f (updateZ l i x) = updateZ (map f l) i (f x).
Proof. unfold updateZ. destruct (i <? 0); [reflexivity | apply map_updateNth]. Qed.

Lemma lookupZ_map {A B : Type} (f : A -> B) (l : list A) (i : Z) :
  lookupZ (map f l) i = option_map f (lookupZ l i).
Proof. unfold lookupZ. destruct (i <? 0); [reflexivity | apply nth_error_map]. Qed.

(** The amounts of the lines of each page, which the subtotal adds up. *)
Lemma subTotalEffect_amounts (inv : Invoice) :
  subTotalEffect inv
  = fold_left add
      (List.concat
         (map (map (fun pl => lineAmount (quantity pl) (rate pl))) (pagesOrEmpty inv)))
      zero.
Proof.
  rewrite subTotalEffect_concat, fold_left_addLine_amounts. now rewrite concat_map.
Qed.

(** X6: Editing the description of a line, at any index and with any text,
    changes neither the subtotal nor the tax amount. *)
Theorem description_edit_keeps_amounts (st : State) (index : Z) (value : string) :
  let st' := handleProductLineChange st index keyDescription value in
  subTotalEffect (invoice st') = subTotalEffect (invoice st)
  /\ saleTax (recompute st') = saleTax (recompute st)
  /\ totalText (renderFooter false (recompute st'))
     = totalText (renderFooter false (recompute st)).
Proof.
  cbv zeta.
  assert (Hsub : subTotalEffect (invoice (handleProductLineChange st index keyDescription value))
                 = subTotalEffect (invoice st)).
  { rewrite !subTotalEffect_amounts. f_equal. f_equal.
    unfold handleProductLineChange.
    destruct (lookupZ (pagesOrEmpty (invoice st)) (currentPage st - 1))
      as [pageItems|] eqn:Hpage; [| now rewrite lookupZ_nil].
    destruct (lookupZ pageItems index) as [productLine|] eqn:Hitem; [| reflexivity].
    cbn [invoice setInvoice]. rewrite pagesOrEmpty_with.
    rewrite map_updateZ, map_updateZ. cbn [setField quantity rate].
    rewrite (updateZ_same (map _ pageItems) index).
    - apply updateZ_same. now rewrite lookupZ_map, Hpage.
    - now rewrite lookupZ_map, Hitem. }
  assert (Hlabel : taxLabel (invoice (handleProductLineChange st index keyDescription value))
                   = taxLabel (invoice st)).
  { unfold handleProductLineChange.
    destruct (lookupZ _ (currentPage st - 1)); [| now rewrite lookupZ_nil].
    destruct (lookupZ _ index); reflexivity. }
  split; [exact Hsub | split].
  - unfold recompute. cbn [saleTax]. now rewrite Hsub, Hlabel.
  - unfold renderFooter, totalValue, recompute. cbn [totalText subTotal saleTax].
    now rewrite Hsub, Hlabel.
Qed.

(** ** The states of the editor *)

Lemma pagesInvariant_mounted (inv : Invoice) : pagesInvariant (mounted inv).
Proof.
  unfold pagesInvariant, mounted, recompute, initializePages.
  cbn [invoice totalPages currentPage].
  destruct (pageProductLines inv) as [[|p ps]|] eqn:Hp.
  - exists [[]]. cbn. repeat split; lia.
  - exists (p :: ps). unfold pagesOrEmpty. rewrite Hp. cbn [List.length].
    repeat split; lia.
  - exists [[]]. cbn. repeat split; lia.
Qed.

Lemma pagesInvariant_effects (st : State) :
  pagesInvariant st -> pagesInvariant (totalPagesEffect (recompute st)).
Proof.
  intros (pages & Hp & Ht & Hc). unfold totalPagesEffect.
  cbn [recompute invoice totalPages]. rewrite Hp, Ht, Z.ltb_irrefl.
  exists pages. cbn [recompute invoice totalPages currentPage]. auto.
Qed.

Lemma handleChange_pages (st : State) (key : InvoiceKey) (value : FieldValue) :
  pageProductLines (invoice (handleChange st key value)) = pageProductLines (invoice st)
  /\ productLines (invoice (handleChange st key value)) = productLines (invoice st)
  /\ currentPage (handleChange st key value) = currentPage st
  /\ totalPages (handleChange st key value) = totalPages st.
Proof. destruct key; repeat split. Qed.

Lemma pagesInvariant_handle (initialProductLine : ProductLine) (st : State) (a : Action) :
  pagesInvariant st -> offered st a ->
  exists st', handle initialProductLine st a = Some st' /\ pagesInvariant st'.
Proof.
  intros (pages & Hp & Ht & Hc) Hoff.
  assert (Hpages : pagesOrEmpty (invoice st) = pages) by (unfold pagesOrEmpty; now rewrite Hp).
  assert (Hsel : exists items, lookupZ pages (currentPage st - 1) = Some items).
  { destruct (lookupZ pages (currentPage st - 1)) as [items|] eqn:E; [now exists items|].
    apply lookupZ_outside in E. lia. }
  destruct Hsel as [items Hitems].
  destruct a as [key value | index name value | i | | | page]; cbn [handle].
  - eexists. split; [reflexivity|].
    destruct (handleChange_pages st key value) as (H1 & _ & H3 & H4).
    exists pages. rewrite H1, H3, H4. auto.
  - eexists. split; [reflexivity|].
    unfold handleProductLineChange. rewrite Hpages, Hitems.
    destruct (lookupZ items index); [| exists pages; auto].
    eexists. cbn [invoice setInvoice pageProductLines withPageProductLines
                  totalPages currentPage].
    split; [reflexivity|]. rewrite length_updateZ. auto.
  - eexists. split; [reflexivity|].
    unfold handleRemove. rewrite Hpages, Hitems.
    eexists. cbn [invoice setInvoice pageProductLines withPageProductLines
                  totalPages currentPage].
    split; [reflexivity|]. rewrite length_updateZ. auto.
  - unfold handleAdd. rewrite Hpages, Hitems.
    eexists. split; [reflexivity|].
    eexists. cbn [invoice setInvoice pageProductLines withPageProductLines
                  totalPages currentPage].
    split; [reflexivity|]. rewrite length_updateZ. auto.
  - eexists. split; [reflexivity|].
    eexists. cbn [handleAddPage invoice pageProductLines withPageProductLines
                  totalPages currentPage].
    split; [reflexivity|]. rewrite Hpages, length_app. cbn [List.length]. lia.
  - eexists. split; [reflexivity|].
    exists pages. cbn [handlePageChange invoice totalPages currentPage].
    cbn [offered] in Hoff. repeat split; try assumption; lia.
Qed.

Lemma reachable_invariant
    (initialProductLine : ProductLine) (inv : Invoice) (st : State) :
  reachable initialProductLine inv st -> pagesInvariant st.
Proof.
  induction 1 as [| st st' a Hreach IH Hoff Hperf].
  - apply pagesInvariant_mounted.
  - destruct (pagesInvariant_handle initialProductLine st a IH Hoff) as (st1 & Hh & Hinv).
    unfold perform in Hperf. rewrite Hh in Hperf. cbn [option_map] in Hperf.
    injection Hperf as <-. now apply pagesInvariant_effects.
Qed.

(** X7: In every state the editor reaches, the invoice has its array of pages,
    [totalPages] is the number of pages, and the selected page is one of
    them. *)
Theorem reachable_pagesInvariant
    (initialProductLine : ProductLine) (inv : Invoice) (st : State) :
  reachable initialProductLine inv st ->
  exists pages items,
    pageProductLines (invoice st) = Some pages
    /\ totalPages st = Z.of_nat (List.length pages)
    /\ 1 <= currentPage st <= totalPages st
    /\ lookupZ pages (currentPage st - 1) = Some items.
Proof.
  intros Hreach.
  destruct (reachable_invariant _ _ _ Hreach) as (pages & Hp & Ht & Hc).
  destruct (lookupZ pages (currentPage st - 1)) as [items|] eqn:Hitems.
  - exists pages, items. auto.
  - apply lookupZ_outside in Hitems. lia.
Qed.

(** The invariant after "add page" on the invoice with one line: the second
    page is selected and exists. *)
Lemma reachable_pagesInvariant_witness :
  exists pages items,
    pageProductLines
      (invoice (totalPagesEffect (recompute (handleAddPage (mounted dollarInvoice)))))
    = Some pages
    /\ totalPages (totalPagesEffect (recompute (handleAddPage (mounted dollarInvoice))))
       = Z.of_nat (List.length pages)
    /\ 1 <= currentPage (totalPagesEffect (recompute (handleAddPage (mounted dollarInvoice))))
         <= totalPages (totalPagesEffect (recompute (handleAddPage (mounted dollarInvoice))))
    /\ lookupZ pages
         (currentPage (totalPagesEffect (recompute (handleAddPage (mounted dollarInvoice)))) - 1)
       = Some items.
Proof.
  exact (reachable_pagesInvariant (line "" "1" "0.00") dollarInvoice _
           (reach_step _ _ _ _ actAddPage (reach_mounted _ _) I eq_refl)).
Defined.

(** X8: In every state the editor reaches, each control offered has its effect:
    a line is always added to a page that exists (the array of pages never
    gets a hole), and a removal or an edit always finds the selected page. *)
Theorem reachable_controls_act
    (initialProductLine : ProductLine) (inv : Invoice) (st : State) (a : Action) :
  reachable initialProductLine inv st -> offered st a ->
  (exists st', perform initialProductLine st a = Some st')
  /\ (exists items,
        lookupZ (pagesOrEmpty (invoice st)) (currentPage st - 1) = Some items
        /\ getCurrentPageItems false st = items
        /\ (forall st', handleAdd initialProductLine st = Some st' ->
            getCurrentPageItems false st' = (items ++ [initialProductLine])%list)
        /\ (forall i, getCurrentPageItems false (handleRemove st i) = removeFrom items 0 i)).
Proof.
  intros Hreach Hoff.
  pose proof (reachable_invariant _ _ _ Hreach) as Hinv.
  split.
  - destruct (pagesInvariant_handle initialProductLine st a Hinv Hoff) as (st1 & Hh & _).
    unfold perform. rewrite Hh. eexists. reflexivity.
  - destruct Hinv as (pages & Hp & Ht & Hc).
    assert (Hpages : pagesOrEmpty (invoice st) = pages)
      by (unfold pagesOrEmpty; now rewrite Hp).
    destruct (lookupZ pages (currentPage st - 1)) as [items|] eqn:Hitems.
    2:{ apply lookupZ_outside in Hitems. lia. }
    exists items. rewrite Hpages.
    split; [exact Hitems | split; [| split]].
    + unfold getCurrentPageItems. now rewrite Hpages, Hitems.
    + intros st'. unfold handleAdd. rewrite Hpages, Hitems. intros [= <-].
      unfold getCurrentPageItems. cbn [invoice setInvoice currentPage].
      rewrite pagesOrEmpty_with. now rewrite (lookupZ_updateZ _ _ _ _ Hitems).
    + intros i. apply handleRemove_on_page. now rewrite Hpages.
Qed.

(** On the invoice with one line, "add line" is offered, acts, and puts the
    blank line after the line that is there. *)
Lemma reachable_controls_act_witness :
  (exists st', perform (line "" "1" "0.00") (mounted dollarInvoice) actAdd = Some st')
  /\ (exists items,
        lookupZ (pagesOrEmpty (invoice (mounted dollarInvoice)))
          (currentPage (mounted dollarInvoice) - 1) = Some items
        /\ getCurrentPageItems false (mounted dollarInvoice) = items
        /\ (forall st', handleAdd (line "" "1" "0.00") (mounted dollarInvoice) = Some st' ->
            getCurrentPageItems false st' = (items ++ [line "" "1" "0.00"])%list)
        /\ (forall i, getCurrentPageItems false (handleRemove (mounted dollarInvoice) i)
                      = removeFrom items 0 i)).
Proof.
  exact (reachable_controls_act (line "" "1" "0.00") dollarInvoice (mounted dollarInvoice)
           actAdd (reach_mounted _ _) I).
Defined.

(** ** Editing the fields of the invoice *)

(** X9: [handleChange] writes the one field named, and only a value of the
    type of that field: a text under a text key replaces that text and no
    other; a number under a text key, or a text under [logoWidth], changes
    nothing.  It never touches the lines, so the subtotal is as before. *)
Theorem handleChange_writes_one_field (st : State) (key : InvoiceKey) :
  (forall v k,
     textOf k (invoice (handleChange st key (textValue v)))
     = match textOf k (invoice st) with
       | Some old => Some (if InvoiceKey_eq_dec key k then v else old)
       | None => None
       end)
  /\ (forall v, logoWidth (invoice (handleChange st key (textValue v)))
                = logoWidth (invoice st))
  /\ (forall n, key <> k_logoWidth ->
                invoice (handleChange st key (numberValue n)) = invoice st)
  /\ (forall n, logoWidth (invoice (handleChange st k_logoWidth (numberValue n))) = n)
  /\ (forall value,
        pageProductLines (invoice (handleChange st key value))
        = pageProductLines (invoice st)
        /\ productLines (invoice (handleChange st key value)) = productLines (invoice st)
        /\ subTotalEffect (invoice (handleChange st key value))
           = subTotalEffect (invoice st)).
Proof.
  split; [| split; [| split; [| split]]].
  - intros v k. destruct key, k; reflexivity.
  - intros v. destruct key; reflexivity.
  - intros n Hkey. destruct st as [inv s t q cp tp]. destruct inv.
    destruct key; try reflexivity. contradiction.
  - intros n. reflexivity.
  - intros value. destruct (handleChange_pages st key value) as (H1 & H2 & _).
    split; [exact H1 | split; [exact H2|]].
    unfold subTotalEffect. now rewrite H1.
Qed.

(** A number handed over for the currency field changes nothing. *)
Lemma handleChange_writes_one_field_witness :
  invoice (handleChange (mounted dollarInvoice) k_currency (numberValue (of_Z 5)))
  = invoice (mounted dollarInvoice).
Proof.
  exact (proj1 (proj2 (proj2 (handleChange_writes_one_field (mounted dollarInvoice)
                                k_currency))) (of_Z 5) ltac:(discriminate)).
Defined.

(** X10: The payload reads five fields of the invoice: the name, the company
    name, the IBAN, the BIC and the invoice title.  An edit of any other
    field, the currency symbol and the tax label among them, leaves the
    payload of the editor and the text handed to the export encoder as they
    were. *)
Theorem handleChange_keeps_payload
    (st : State) (key : InvoiceKey) (value : FieldValue) (sub : option number) :
  ~ In key [k_name; k_companyName; k_iban; k_bic; k_invoiceTitle] ->
  generateSepaQRData (invoice (handleChange st key value)) sub
  = generateSepaQRData (invoice st) sub
  /\ qrEffect (invoice (handleChange st key value)) sub = qrEffect (invoice st) sub.
Proof.
  intros Hkey.
  destruct key, value; try (split; reflexivity); exfalso; apply Hkey; cbn; auto 10.
Qed.

(** Typing a dollar sign into the currency field of the invoice with one
    line leaves its payload as it was. *)
Lemma handleChange_keeps_payload_witness :
  generateSepaQRData
    (invoice (handleChange (mounted dollarInvoice) k_currency (textValue "USD")))
    (subTotal (mounted dollarInvoice))
  = generateSepaQRData dollarInvoice (subTotal (mounted dollarInvoice)).
Proof.
  refine (proj1 (handleChange_keeps_payload (mounted dollarInvoice) k_currency
                   (textValue "USD") (subTotal (mounted dollarInvoice)) _)).
  cbn. intros [H|[H|[H|[H|[H|[]]]]]]; discriminate H.
Defined.

(** ** The table and the pages shown *)

Lemma isShown_renderRow (productLine : ProductLine) :
  isShown (renderRow true productLine) = hasDescription productLine.
Proof.
  unfold renderRow, hasDescription. cbn [andb].
  now destruct (String.eqb (description productLine) "").
Qed.

(** X11: The table has one element per line, so the index a row hands to its
    handlers is the index of its line.  The editor shows every line; the
    export shows the lines that have a description, in their order, and
    leaves an empty element for each of the others. *)
Theorem renderTable_rows (items : list ProductLine) :
  (forall pdfMode, List.length (renderTable pdfMode items) = List.length items)
  /\ forallb isShown (renderTable false items) = true
  /\ filter isShown (renderTable true items)
     = renderTable true (filter hasDescription items)
  /\ (forall i,
        nth_error (renderTable true items) i
        = option_map
            (fun productLine =>
               if hasDescription productLine
               then rowShown (description productLine) (quantity productLine)
                      (rate productLine)
                      (replaceFirst "." ","
                         (calculateAmount (quantity productLine) (rate productLine)))
                      false
               else rowEmpty)
            (nth_error items i)).
Proof.
  split; [| split; [| split]].
  - intros pdfMode. apply length_map.
  - induction items as [|pl items IH]; [reflexivity | exact IH].
  - induction items as [|pl items IH]; [reflexivity|].
    cbn [renderTable map filter]. rewrite isShown_renderRow.
    destruct (hasDescription pl); cbn [map]; [f_equal|]; exact IH.
  - intros i. unfold renderTable. rewrite nth_error_map.
    destruct (nth_error items i) as [productLine|]; [| reflexivity].
    cbn [option_map]. f_equal. unfold renderRow, hasDescription. cbn [andb negb].
    now destruct (String.eqb (description productLine) "").
Qed.

Lemma lookupZ_cons_succ {A : Type} (h : A) (t : list A) (p : nat) :
  lookupZ (h :: t) (Z.of_nat (S p)) = lookupZ t (Z.of_nat p).
Proof.
  unfold lookupZ.
  destruct (Z.ltb_spec (Z.of_nat (S p)) 0); [lia|].
  destruct (Z.ltb_spec (Z.of_nat p) 0); [lia|].
  now rewrite !Nat2Z.id.
Qed.

Lemma map_lookupZ_seq {A : Type} (l : list A) :
  map (fun p => lookupZ l (Z.of_nat p)) (seq 0 (List.length l)) = map Some l.
Proof.
  induction l as [|h t IH]; [reflexivity|].
  cbn [List.length seq map]. f_equal.
  rewrite <- seq_shift, map_map, <- IH.
  apply map_ext. intros p. apply lookupZ_cons_succ.
Qed.

(** X12: Going through the page buttons from the first page to the last shows
    every line of the invoice once, in the order of the flattened pages. *)
Theorem pages_shown_in_turn (st : State) :
  List.concat
    (map (fun p => getCurrentPageItems false (handlePageChange st (Z.of_nat p + 1)))
       (seq 0 (List.length (pagesOrEmpty (invoice st)))))
  = getCurrentPageItems true st.
Proof.
  unfold getCurrentPageItems. cbn [handlePageChange invoice currentPage].
  f_equal.
  transitivity
    (map (fun o : option (list ProductLine) => match o with Some x => x | None => [] end)
       (map (fun p => lookupZ (pagesOrEmpty (invoice st)) (Z.of_nat p))
          (seq 0 (List.length (pagesOrEmpty (invoice st)))))).
  - rewrite map_map. apply map_ext. intros p.
    now replace (Z.of_nat p + 1 - 1) with (Z.of_nat p) by lia.
  - rewrite map_lookupZ_seq, map_map. apply map_id.
Qed.

(** ** Reading back the text stored by an edit *)

Section CommaStopsParseFloat.
Variable t : string.
Local Abbreviation u := (String "," t).

Lemma trimStart_app_comma (s : string) :
  (trimStart s = EmptyString /\ trimStart (s ++ u) = u)
  \/ (exists c r, trimStart s = String c r /\ trimStart (s ++ u) = String c (r ++ u)).
Proof.
  induction s as [|c r IH].
  - left. split; reflexivity.
  - cbn [append trimStart]. destruct (isWhiteSpace c).
    + exact IH.
    + right. exists c, r. split; reflexivity.
Qed.

Lemma readDigits_app_comma (r : string) (acc n : Z) :
  readDigits (r ++ u) acc n
  = let '(v, k, rest) := readDigits r acc n in (v, k, rest ++ u).
Proof.
  revert acc n. induction r as [|c r IH]; intros acc n.
  - reflexivity.
  - cbn [append readDigits]. destruct (isDigit c); [apply IH | reflexivity].
Qed.

Lemma signSplit_eq (r : string) :
  match r with
  | String "+" r' => (false, r')
  | String "-" r' => (true, r')
  | _ => (false, r)
  end
  = match r with
    | String c r' =>
        if Ascii.eqb c "+" then (false, r')
        else if Ascii.eqb c "-" then (true, r') else (false, r)
    | EmptyString => (false, r)
    end.
Proof.
  destruct r as [|c r']; [reflexivity|].
  destruct c as [[] [] [] [] [] [] [] []]; reflexivity.
Qed.

Lemma readExponent_app_comma (r : string) : readExponent (r ++ u) = readExponent r.
Proof.
  destruct r as [|c r]; [reflexivity|].
  cbn [append]. unfold readExponent.
  destruct (Ascii.eqb c "e" || Ascii.eqb c "E"); [| reflexivity].
  rewrite !signSplit_eq.
  destruct r as [|c2 r2]; [reflexivity|].
  cbn [append].
  destruct (Ascii.eqb c2 "+"); [| destruct (Ascii.eqb c2 "-")].
  - rewrite readDigits_app_comma. now destruct (readDigits r2 0 0) as [[v k] rest].
  - rewrite readDigits_app_comma. now destruct (readDigits r2 0 0) as [[v k] rest].
  - change (String c2 (r2 ++ u)) with (String c2 r2 ++ u).
    rewrite readDigits_app_comma. now destruct (readDigits (String c2 r2) 0 0) as [[v k] rest].
Qed.

Lemma prefix_app_comma (p r : string) :
  includes "," p = false -> prefix p (r ++ u) = prefix p r.
Proof.
  revert r. induction p as [|a p IH]; intros r Hp.
  - now destruct r.
  - cbn [includes] in Hp. apply orb_false_iff in Hp as [Ha Hp].
    destruct r as [|c r]; cbn [append prefix].
    + destruct (ascii_dec a ",") as [->|]; [discriminate | reflexivity].
    + destruct (ascii_dec a c); [now apply IH | reflexivity].
Qed.

Lemma strUnsignedDecimalLiteral_eq (neg : bool) (s : string) :
  strUnsignedDecimalLiteral neg s
  = if prefix "Infinity" s then S754_infinity neg
    else
      let '(ip, ni, r1) := readDigits s 0 0 in
      match r1 with
      | String c r2 =>
          if Ascii.eqb c "." then
            let '(m, nf, r3) := readDigits r2 ip 0 in
            if (ni =? 0) && (nf =? 0) then NaN
            else of_decimal neg m (readExponent r3 - nf)
          else if ni =? 0 then NaN else of_decimal neg ip (readExponent r1)
      | EmptyString => if ni =? 0 then NaN else of_decimal neg ip (readExponent r1)
      end.
Proof.
  unfold strUnsignedDecimalLiteral. destruct (prefix "Infinity" s); [reflexivity|].
  destruct (readDigits s 0 0) as [[ip ni] r1].
  destruct r1 as [|c r2]; [reflexivity|].
  destruct c as [[] [] [] [] [] [] [] []]; reflexivity.
Qed.

Lemma strUnsignedDecimalLiteral_app_comma (neg : bool) (r : string) :
  strUnsignedDecimalLiteral neg (r ++ u) = strUnsignedDecimalLiteral neg r.
Proof.
  rewrite !strUnsignedDecimalLiteral_eq.
  rewrite prefix_app_comma by reflexivity.
  destruct (prefix "Infinity" r); [reflexivity|].
  rewrite readDigits_app_comma.
  destruct (readDigits r 0 0) as [[ip ni] r1].
  destruct r1 as [|c r2].
  - reflexivity.
  - cbn [append].
    destruct (Ascii.eqb c ".").
    + rewrite readDigits_app_comma.
      destruct (readDigits r2 ip 0) as [[m nf] r3].
      now rewrite readExponent_app_comma.
    + change (String c (r2 ++ u)) with (String c r2 ++ u).
      now rewrite readExponent_app_comma.
Qed.

(** [parseFloat] reads nothing at or after a comma. *)
Lemma parseFloat_app_comma (s : string) : parseFloat (s ++ u) = parseFloat s.
Proof.
  unfold parseFloat.
  destruct (trimStart_app_comma s) as [[-> ->] | (c & r & -> & ->)].
  - reflexivity.
  - destruct (Ascii.eqb c "+"); [apply strUnsignedDecimalLiteral_app_comma|].
    destruct (Ascii.eqb c "-"); [apply strUnsignedDecimalLiteral_app_comma|].
    change (String c (r ++ u)) with (String c r ++ u).
    apply strUnsignedDecimalLiteral_app_comma.
Qed.
End CommaStopsParseFloat.

Lemma replaceFirst_period (a b : string) :
  includes "." a = false ->
  replaceFirst "." "," (a ++ String "." b) = a ++ String "," b.
Proof.
  induction a as [|c a IH]; intros Ha.
  - reflexivity.
  - cbn [includes] in Ha. apply orb_false_iff in Ha as [Hc Ha].
    cbn [append replaceFirst]. rewrite Hc. now rewrite IH.
Qed.

(** X13: A quantity or a rate that is stored as a number with a fraction is
    stored with a comma, and the amounts read it only up to that comma:
    when the number typed prints as [a.b], the text kept is [a,b] and the
    amount of the line is the one of [a], the fraction left out. *)
Theorem stored_fraction_is_not_read (value a b : string) :
  keepsRawText value = false ->
  toString (if truthy (parseFloat value) then parseFloat value else zero)
  = a ++ String "." b ->
  includes "." a = false ->
  editedField keyQuantity value = a ++ String "," b
  /\ editedField keyRate value = a ++ String "," b
  /\ parseFloat (a ++ String "," b) = parseFloat a
  /\ (forall rate, lineAmount (editedField keyQuantity value) rate = lineAmount a rate)
  /\ (forall quantity, lineAmount quantity (editedField keyRate value) = lineAmount quantity a).
Proof.
  intros Hraw Hprint Ha.
  assert (Hstored : normalizedText value = a ++ String "," b).
  { unfold normalizedText. cbv zeta. rewrite Hprint. now apply replaceFirst_period. }
  unfold editedField. rewrite Hraw, Hstored.
  pose proof (parseFloat_app_comma b a) as Hread.
  repeat split; try assumption.
  - intros rate. unfold lineAmount. cbv zeta. now rewrite Hread.
  - intros quantity. unfold lineAmount. cbv zeta. now rewrite Hread.
Qed.

(** The quantity 1.5 is stored as 1,5 and counts as 1: at the rate 10 the
    amount of the line is 10.00. *)
Lemma stored_fraction_is_not_read_witness :
  editedField keyQuantity "1.5" = "1,5"
  /\ lineAmount (editedField keyQuantity "1.5") "10" = lineAmount "1" "10"
  /\ calculateAmount (editedField keyQuantity "1.5") "10" = "10.00".
Proof.
  pose proof (stored_fraction_is_not_read "1.5" "1" "5" eq_refl eq_refl eq_refl) as H.
  split; [exact (proj1 H) | split].
  - exact (proj1 (proj2 (proj2 (proj2 H))) "10").
  - unfold calculateAmount. rewrite (proj1 (proj2 (proj2 (proj2 H))) "10"). reflexivity.
Defined.

(** ** More on the tax label and the amounts *)

Lemma matchDigitsPercent_app (s b ds : string) :
  matchDigitsPercent s = Some ds -> matchDigitsPercent (s ++ b) = Some ds.
Proof.
  revert ds. induction s as [|c r IH]; intros ds; cbn [append matchDigitsPercent].
  - discriminate.
  - destruct (isDigit c); [| discriminate].
    destruct (matchDigitsPercent r) as [ds'|] eqn:Hr.
    + intros [= <-]. now rewrite (IH ds' eq_refl).
    + destruct r as [|c' r']; [discriminate|].
      cbn [startsWithChar append].
      destruct (Ascii.eqb c' "%") eqn:Hc'; [| discriminate].
      intros [= <-].
      cbn [matchDigitsPercent]. now rewrite (percent_not_digit c' Hc').
Qed.

Lemma regexSearch_app_aux (s b ds : string) :
  regexSearch s = Some ds ->
  regexSearch (s ++ b) = Some ds
  /\ (matchDigitsPercent s = None -> matchDigitsPercent (s ++ b) = None).
Proof.
  induction s as [|c r IH]; cbn [regexSearch].
  - discriminate.
  - destruct (matchDigitsPercent (String c r)) as [ds0|] eqn:Hm.
    + intros [= <-]. split; [| discriminate].
      cbn [append regexSearch].
      change (String c (r ++ b)) with (String c r ++ b).
      now rewrite (matchDigitsPercent_app _ b _ Hm).
    + intros Hr. destruct (IH Hr) as [IH1 IH2].
      assert (Hnone : matchDigitsPercent (String c r ++ b) = None).
      { cbn [append matchDigitsPercent] in *.
        destruct (isDigit c); [| reflexivity].
        destruct (matchDigitsPercent r) as [x|] eqn:Hmr; [discriminate|].
        rewrite (IH2 eq_refl).
        destruct r as [|c' r']; [discriminate Hr|].
        cbn [startsWithChar append] in *.
        now destruct (Ascii.eqb c' "%"). }
      split; [| intros _; exact Hnone].
      cbn [append regexSearch].
      change (String c (r ++ b)) with (String c r ++ b).
      now rewrite Hnone.
Qed.

(** X14: Once the tax label holds a percentage, whatever is written after it
    changes neither the rate nor the tax amount: the first percentage
    wins. *)
Theorem text_after_the_rate_is_ignored (label more ds : string) (sub : option number) :
  regexSearch label = Some ds ->
  extractRatePercent (label ++ more) = extractRatePercent label
  /\ saleTaxEffect sub (label ++ more) = saleTaxEffect sub label.
Proof.
  intros H. destruct (regexSearch_app_aux label more ds H) as [Happ _].
  assert (Hrate : extractRatePercent (label ++ more) = extractRatePercent label)
    by (unfold extractRatePercent; now rewrite Happ, H).
  split; [exact Hrate|].
  unfold saleTaxEffect. cbv zeta. now rewrite Hrate.
Qed.

(** The label of the specification, 7% off, with a second percentage added. *)
Lemma text_after_the_rate_is_ignored_witness :
  extractRatePercent ("7% off" ++ ", 19% VAT") = extractRatePercent "7% off".
Proof.
  exact (proj1 (text_after_the_rate_is_ignored "7% off" ", 19% VAT" "7" None eq_refl)).
Defined.

Lemma mul_comm (x y : number) : mul x y = mul y x.
Proof.
  destruct x as [sx|sx| |sx mx ex], y as [sy|sy| |sy my ey]; cbn [mul SFmul];
    try reflexivity; try (now rewrite xorb_comm).
  now rewrite xorb_comm, Pos.mul_comm, Z.add_comm.
Qed.

(** X15: The amount of a line is the same when the quantity and the rate are
    exchanged, in its value and in the text shown. *)
Theorem lineAmount_symmetric (quantity rate : string) :
  lineAmount quantity rate = lineAmount rate quantity
  /\ calculateAmount quantity rate = calculateAmount rate quantity.
Proof.
  assert (H : lineAmount quantity rate = lineAmount rate quantity).
  { unfold lineAmount. cbv zeta. rewrite andb_comm.
    destruct (truthy (parseFloat rate) && truthy (parseFloat quantity));
      [apply mul_comm | reflexivity]. }
  split; [exact H | unfold calculateAmount; now rewrite H].
Qed.

(** X16: A tax label without a percentage gives a rate of 0 and a tax amount
    shown as 0,00, for every subtotal that is not infinite. *)
Theorem label_without_rate_gives_no_tax (label : string) (s : number) :
  regexSearch label = None ->
  (forall sign, s <> S754_infinity sign) ->
  extractRatePercent label = zero
  /\ money (saleTaxEffect (Some s) label) = "0,00".
Proof.
  intros Hnone Hfin.
  assert (Hrate : extractRatePercent label = zero)
    by (unfold extractRatePercent; now rewrite Hnone).
  split; [exact Hrate|].
  unfold saleTaxEffect. cbv zeta. rewrite Hrate.
  replace (of_Z 100) with (S754_finite false 7036874417766400 (-46))
    by (vm_compute; reflexivity).
  destruct s as [sg|sg| |sg m e]; cbn [truthy].
  - reflexivity.
  - now destruct (Hfin sg).
  - reflexivity.
  - cbn [mul SFmul zero div SFdiv]. reflexivity.
Qed.

(** The label "no tax" on a subtotal of 100. *)
Lemma label_without_rate_gives_no_tax_witness :
  extractRatePercent "no tax" = zero
  /\ money (saleTaxEffect (Some (of_Z 100)) "no tax") = "0,00".
Proof.
  refine (label_without_rate_gives_no_tax "no tax" (of_Z 100) eq_refl _).
  intros sign. vm_compute. discriminate.
Defined.

(** X17: An invoice without lines, whatever its pages and its tax label, shows
    0,00 as subtotal, tax and total, in the editor and in the export, and no
    payload is encoded for the export. *)
Theorem no_lines_all_zero (inv : Invoice) (pdfMode : bool) :
  List.concat (pagesOrEmpty inv) = [] ->
  let footer := renderFooter pdfMode (mounted inv) in
  subTotalText footer = Some "0,00"
  /\ saleTaxText footer = Some "0,00"
  /\ totalText footer = "0,00"
  /\ qrCodeData (mounted inv) = None.
Proof.
  intros Hflat.
  assert (Hsub : subTotalEffect (initializePages inv) = zero).
  { apply subTotal_no_lines. right.
    unfold initializePages, pagesOrEmpty in *.
    destruct (pageProductLines inv) as [[|p ps]|] eqn:Hp; cbn; try reflexivity.
    rewrite Hp. exact Hflat. }
  cbv zeta. unfold renderFooter, totalValue, mounted, recompute, qrEffect.
  cbn [subTotalText saleTaxText totalText qrCodeData invoice subTotal saleTax].
  rewrite Hsub. cbn [saleTaxEffect truthy zero truthySubTotal option_map].
  rewrite !andb_false_r. repeat split.
Qed.

(** The invoice with both banking fields and an empty page. *)
Lemma no_lines_all_zero_witness :
  subTotalText (renderFooter true (mounted noLinesInvoice)) = Some "0,00"
  /\ saleTaxText (renderFooter true (mounted noLinesInvoice)) = Some "0,00"
  /\ totalText (renderFooter true (mounted noLinesInvoice)) = "0,00"
  /\ qrCodeData (mounted noLinesInvoice) = None.
Proof. exact (no_lines_all_zero noLinesInvoice true eq_refl). Defined.

(** ** The component with pages and the component before pages *)

(** X18: On an invoice whose lines are all on one page, the first one, the
    handlers of the component with pages change that page as the handlers
    of the single-list component change the list of lines, and the two
    subtotals are the same. *)
Theorem one_page_as_single_list
    (initialProductLine : ProductLine) (st : State) (inv : Invoice)
    (index : Z) (name : ProductLineKey) (value : string) :
  pageProductLines (invoice st) = Some [productLines inv] ->
  currentPage st = 1 ->
  pagesOrEmpty (invoice (handleProductLineChange st index name value))
  = [productLines (Unpaged.handleProductLineChange inv index name value)]
  /\ pagesOrEmpty (invoice (handleRemove st index))
     = [productLines (Unpaged.handleRemove inv index)]
  /\ option_map (fun st' => pagesOrEmpty (invoice st')) (handleAdd initialProductLine st)
     = Some [productLines (Unpaged.handleAdd initialProductLine inv)]
  /\ subTotalEffect (invoice st) = Unpaged.subTotalEffect inv.
Proof.
  intros Hpages Hcur.
  assert (Hp : pagesOrEmpty (invoice st) = [productLines inv])
    by (unfold pagesOrEmpty; now rewrite Hpages).
  split; [| split; [| split]].
  - unfold handleProductLineChange, Unpaged.handleProductLineChange.
    rewrite Hp, Hcur. cbn [Z.sub Z.add Z.opp Z.pos_sub lookupZ Z.ltb Z.compare
                           Z.to_nat nth_error productLines withProductLines].
    rewrite (mapIndexed_update (fun pl => setField pl name (editedField name value))).
    rewrite Z.sub_0_r.
    destruct (lookupZ (productLines inv) index); [reflexivity | exact Hp].
  - unfold handleRemove, Unpaged.handleRemove. rewrite Hp, Hcur. reflexivity.
  - unfold handleAdd, Unpaged.handleAdd. rewrite Hp, Hcur. reflexivity.
  - unfold subTotalEffect, Unpaged.subTotalEffect. now rewrite Hpages.
Qed.

(** The invoice with one line, edited at its line and at an index it does
    not have. *)
Lemma one_page_as_single_list_witness :
  pagesOrEmpty
    (invoice (handleProductLineChange
                (mounted (withProductLines dollarInvoice [line "Widget" "10" "10"]))
                0 keyRate "12."))
  = [[line "Widget" "10" "12."]]
  /\ subTotalEffect (invoice (mounted (withProductLines dollarInvoice [line "Widget" "10" "10"])))
     = Unpaged.subTotalEffect (withProductLines dollarInvoice [line "Widget" "10" "10"]).
Proof.
  pose proof (one_page_as_single_list (line "" "1" "0.00")
                (mounted (withProductLines dollarInvoice [line "Widget" "10" "10"]))
                (withProductLines dollarInvoice [line "Widget" "10" "10"])
                0 keyRate "12." eq_refl eq_refl) as H.
  split; [exact (proj1 H) | exact (proj2 (proj2 (proj2 H)))].
Defined.

(** ** The size of the export pages *)

Lemma length_pdfPage (inv : Invoice) (k : nat) :
  List.length (tableItems (pdfPage inv k))
  = Nat.min 20 (List.length (productLines inv) - k * 20).
Proof.
  unfold pdfPage, slice, itemsPerPDFPage. cbn [tableItems].
  rewrite length_firstn, length_skipn. lia.
Qed.

(** X19: In export mode [productLines] is cut into [max 1 (ceil (N / 20))]
    pages; the items of the pages, put back together, are [productLines]; a
    page holds at most 20 lines and every page before the last exactly 20;
    the header is on the first page only and the footer on the last page
    only. *)
Theorem renderPDFPages_pages (st : State) :
  let pages := renderPDFPages true st in
  let N := List.length (productLines (invoice st)) in
  List.length pages = Nat.max 1 (ceilDiv N 20)
  /\ List.concat (map tableItems pages) = productLines (invoice st)
  /\ Forall (fun page => (List.length (tableItems page) <= 20)%nat) pages
  /\ Forall (fun page => List.length (tableItems page) = 20%nat) (removelast pages)
  /\ map showHeader pages = map (fun k => Nat.eqb k 0) (seq 0 (List.length pages))
  /\ map showFooter pages
     = map (fun k => Nat.eqb k (List.length pages - 1)) (seq 0 (List.length pages)).
Proof.
  cbv zeta. unfold renderPDFPages.
  assert (Hlen : List.length (map (pdfPage (invoice st)) (seq 0 (totalPDFPages (invoice st))))
                 = totalPDFPages (invoice st))
    by now rewrite length_map, length_seq.
  rewrite Hlen.
  split; [reflexivity | split; [| split; [| split; [| split]]]].
  - rewrite map_map. cbn [tableItems pdfPage]. rewrite concat_slices.
    apply firstn_all2. unfold totalPDFPages, itemsPerPDFPage.
    pose proof (ceilDiv_covers (List.length (productLines (invoice st))) 20 ltac:(lia)).
    nia.
  - apply Forall_map, Forall_forall. intros k _. rewrite length_pdfPage. lia.
  - assert (Hlast : removelast (map (pdfPage (invoice st)) (seq 0 (totalPDFPages (invoice st))))
                    = map (pdfPage (invoice st)) (seq 0 (totalPDFPages (invoice st) - 1))).
    { assert (Hpos : (1 <= totalPDFPages (invoice st))%nat)
        by (unfold totalPDFPages; lia).
      destruct (totalPDFPages (invoice st)) as [|n]; [lia|].
      rewrite seq_S, map_app. cbn [map]. rewrite removelast_last.
      now rewrite Nat.sub_succ, Nat.sub_0_r. }
    rewrite Hlast. apply Forall_map, Forall_forall. intros k Hk.
    apply in_seq in Hk. rewrite length_pdfPage.
    unfold totalPDFPages, ceilDiv, itemsPerPDFPage in Hk.
    set (N := List.length (productLines (invoice st))) in *.
    pose proof (Nat.div_mod_eq (N + (20 - 1)) 20) as Hd.
    pose proof (Nat.mod_upper_bound (N + (20 - 1)) 20 ltac:(lia)) as Hb.
    lia.
  - rewrite map_map. reflexivity.
  - rewrite map_map. reflexivity.
Qed.

(** ** A new page and its first line *)

Lemma updateZ_app_end {A : Type} (l : list A) (x y : A) :
  updateZ (l ++ [x]) (Z.of_nat (List.length l)) y = (l ++ [y])%list.
Proof.
  unfold updateZ. destruct (Z.ltb_spec (Z.of_nat (List.length l)) 0) as [Hneg|_]; [lia|].
  rewrite Nat2Z.id.
  induction l as [|h t IH]; cbn [app List.length updateNth]; [reflexivity | now rewrite IH].
Qed.

(** X2: When [totalPages] counts the pages, "add page" selects the new, empty
    page, and "add line" then puts the blank line on it: the new page shows
    that one line, and the flattened lines are those of before followed by
    it. *)
Theorem handleAddPage_then_handleAdd (initialProductLine : ProductLine) (st : State) :
  totalPages st = Z.of_nat (List.length (pagesOrEmpty (invoice st))) ->
  getCurrentPageItems false (handleAddPage st) = []
  /\ exists st',
       handleAdd initialProductLine (handleAddPage st) = Some st'
       /\ getCurrentPageItems false st' = [initialProductLine]
       /\ getCurrentPageItems true st'
          = (getCurrentPageItems true st ++ [initialProductLine])%list.
Proof.
  intros Htotal.
  assert (Hsel : lookupZ (pagesOrEmpty (invoice (handleAddPage st)))
                   (currentPage (handleAddPage st) - 1) = Some []).
  { cbn [handleAddPage invoice currentPage]. rewrite pagesOrEmpty_with.
    replace (totalPages st + 1 - 1) with (Z.of_nat (List.length (pagesOrEmpty (invoice st))))
      by lia.
    apply lookupZ_app_end. }
  split.
  - unfold getCurrentPageItems. now rewrite Hsel.
  - unfold handleAdd. rewrite Hsel. eexists. split; [reflexivity|].
    unfold getCurrentPageItems.
    cbn [invoice setInvoice currentPage]. rewrite !pagesOrEmpty_with.
    cbn [handleAddPage invoice currentPage]. rewrite pagesOrEmpty_with.
    replace (totalPages st + 1 - 1) with (Z.of_nat (List.length (pagesOrEmpty (invoice st))))
      by lia.
    rewrite updateZ_app_end, lookupZ_app_end. split; [reflexivity|].
    rewrite concat_app. cbn [List.concat app]. now rewrite ?app_nil_r.
Qed.

(** A second page added to the invoice with one line, and its first line. *)
Lemma handleAddPage_then_handleAdd_witness :
  getCurrentPageItems false (handleAddPage (mounted dollarInvoice)) = []
  /\ exists st',
       handleAdd (line "" "1" "0.00") (handleAddPage (mounted dollarInvoice)) = Some st'
       /\ getCurrentPageItems false st' = [line "" "1" "0.00"]
       /\ getCurrentPageItems true st'
          = [line "Widget" "10" "10"; line "" "1" "0.00"].
Proof.
  exact (handleAddPage_then_handleAdd (line "" "1" "0.00") (mounted dollarInvoice) eq_refl).
Defined.

(** ** The text of an amount *)

Lemma allDigits_app (a b : string) : allDigits (a ++ b) = allDigits a && allDigits b.
Proof.
  induction a as [|c a IH]; [reflexivity|].
  cbn [append allDigits]. now rewrite IH, andb_assoc.
Qed.

Lemma allDigits_zeros (k : nat) : allDigits (zeros k) = true.
Proof. induction k as [|k IH]; [reflexivity | exact IH]. Qed.

Lemma allDigits_decimalDigits (n : Z) : allDigits (decimalDigits n) = true.
Proof.
  unfold decimalDigits.
  induction (N.to_uint (Z.to_N n)) as [|d IH|d IH|d IH|d IH|d IH|d IH|d IH|d IH|d IH|d IH];
    [reflexivity | exact IH ..].
Qed.

Lemma allDigits_substring (s : string) :
  allDigits s = true -> forall i j, allDigits (substring i j s) = true.
Proof.
  induction s as [|c s IH]; intros H i j.
  - now destruct i, j.
  - cbn [allDigits] in H. apply andb_true_iff in H as [Hc Hs].
    destruct i as [|i]; [destruct j as [|j]|]; cbn [substring allDigits].
    + reflexivity.
    + now rewrite Hc, IH.
    + now apply IH.
Qed.

Lemma length_substring (s : string) :
  forall i j, (i + j <= String.length s)%nat -> String.length (substring i j s) = j.
Proof.
  induction s as [|c s IH]; intros i j H; cbn [String.length] in H.
  - now replace i with 0%nat by lia; replace j with 0%nat by lia.
  - destruct i as [|i]; [destruct j as [|j]|]; cbn [substring String.length].
    + reflexivity.
    + f_equal. apply IH. lia.
    + apply IH. lia.
Qed.

Lemma length_append (a b : string) :
  String.length (a ++ b) = (String.length a + String.length b)%nat.
Proof. induction a as [|c a IH]; [reflexivity | cbn; now rewrite IH]. Qed.

Lemma length_zeros (k : nat) : String.length (zeros k) = k.
Proof. induction k as [|k IH]; [reflexivity | cbn; now rewrite IH]. Qed.

Lemma allDigits_no_period (a : string) : allDigits a = true -> includes "." a = false.
Proof.
  induction a as [|c a IH]; [reflexivity|].
  cbn [allDigits includes]. intros H. apply andb_true_iff in H as [Hc Ha].
  rewrite (IH Ha), orb_false_r.
  destruct (Ascii.eqb_spec c "."); [subst; discriminate | reflexivity].
Qed.

(** The text [toFixed] builds from the integer number of hundredths: some
    digits, a period, two digits. *)
Lemma fixedString_two (n : Z) :
  exists a b,
    fixedString 2 n = a ++ String "." b
    /\ allDigits a = true /\ nonEmpty a = true
    /\ allDigits b = true /\ String.length b = 2%nat.
Proof.
  unfold fixedString.
  set (m' := zeros (3 - String.length (decimalDigits n)) ++ decimalDigits n).
  assert (Hd : allDigits m' = true).
  { unfold m'. now rewrite allDigits_app, allDigits_zeros, allDigits_decimalDigits. }
  assert (Hlen : (3 <= String.length m')%nat).
  { unfold m'. rewrite length_append, length_zeros. lia. }
  exists (substring 0 (String.length m' - 2) m'), (substring (String.length m' - 2) 2 m').
  split; [reflexivity|].
  split; [now apply allDigits_substring|].
  split.
  - assert (Hl : String.length (substring 0 (String.length m' - 2) m')
                 = (String.length m' - 2)%nat) by (apply length_substring; lia).
    destruct (substring 0 (String.length m' - 2) m');
      [change (String.length "") with 0%nat in Hl; lia | reflexivity].
  - split; [now apply allDigits_substring | apply length_substring; lia].
Qed.

(** X20: Every amount that is finite and below 10^21 is shown as digits, a
    comma and exactly two digits, after a minus sign when it is below zero;
    the text has no period. *)
Theorem money_two_decimals (x : number) :
  isFinite x = true -> atLeast1e21 x = false ->
  exists a b,
    money x = (if belowZero x then "-" else "") ++ a ++ String "," b
    /\ allDigits a = true /\ nonEmpty a = true
    /\ allDigits b = true /\ String.length b = 2%nat
    /\ includes "." (money x) = false.
Proof.
  intros Hfin Hsmall.
  assert (Hfixed : toFixed x 2
                   = (if belowZero x then "-" else "") ++ fixedString 2 (fixedInteger 2 x)).
  { destruct x as [sg|sg| |sg m e]; try discriminate Hfin.
    - reflexivity.
    - unfold toFixed. now rewrite Hsmall. }
  destruct (fixedString_two (fixedInteger 2 x)) as (a & b & Hab & Ha & Hna & Hb & Hlen).
  assert (Hmoney : money x = (if belowZero x then "-" else "") ++ a ++ String "," b).
  { unfold money. rewrite Hfixed, Hab.
    destruct (belowZero x); cbn [append replaceFirst Ascii.eqb Bool.eqb];
      now rewrite (replaceFirst_period a b (allDigits_no_period a Ha)). }
  exists a, b. repeat split; try assumption.
  rewrite Hmoney.
  assert (Hno : includes "." (a ++ String "," b) = false).
  { clear - Ha Hb. induction a as [|c a IH].
    - cbn [append includes]. now rewrite (allDigits_no_period b Hb).
    - cbn [allDigits] in Ha. apply andb_true_iff in Ha as [Hc Ha].
      cbn [append includes]. rewrite (IH Ha), orb_false_r.
      destruct (Ascii.eqb_spec c "."); [subst; discriminate | reflexivity]. }
  destruct (belowZero x); cbn [append includes]; now rewrite Hno.
Qed.

(** The amount 13.5, shown as 13,50. *)
Lemma money_two_decimals_witness :
  exists a b,
    money (lineAmount "3" "4.50") = "" ++ a ++ String "," b
    /\ allDigits a = true /\ nonEmpty a = true
    /\ allDigits b = true /\ String.length b = 2%nat
    /\ includes "." (money (lineAmount "3" "4.50")) = false.
Proof. exact (money_two_decimals (lineAmount "3" "4.50") eq_refl eq_refl). Defined.
